(** * Webhook receiver (examples/receiver-python.py): signature check and dispatch

    A shallow embedding of the Flask receiver of
    [outgoing-webhook-complete/examples/receiver-python.py]:
    [verify_webhook_signature] (freshness window, HMAC-SHA256 over
    [timestamp + "." + payload], [hmac.compare_digest]) and the [webhook]
    view function (header gate, body decoding, handshake dispatch, the
    catch-all [except Exception]).

    Python values are modelled as the interpreter has them: [bytes] as lists
    of octets, [str] as lists of Unicode code points, [int] as [Z], a [dict]
    as an association list in insertion order.  Effects ([print],
    [time.time()], raised exceptions, calls of [hmac.new]) are threaded
    through a small state-and-exception monad. *)

From Stdlib Require Import NArith ZArith List String Ascii Bool Lia.
From stdpp Require Import base option list strings gmap.

Local Open Scope N_scope.

(** ** Octets and text *)

(** A Python [bytes] object: every element is an octet. *)
Definition bytes := list N.

(** A Python [str]: a sequence of Unicode code points. *)
Definition str := list N.

Definition str_eqb (a b : str) : bool := bool_decide (a = b).

(** The octets of a Rocq string literal. *)
Definition octets (s : string) : bytes :=
  map (fun a => N_of_ascii a) (list_ascii_of_string s).

(** ** UTF-8, as [bytes.decode('utf-8')] and [str.encode('utf-8')] do it
    (strict error handler: no overlong forms, no surrogates, nothing above
    U+10FFFF). *)

Definition cont (b : N) : bool := (0x80 <=? b) && (b <=? 0xBF).

Definition surrogate (c : N) : bool := (0xD800 <=? c) && (c <=? 0xDFFF).

Fixpoint utf8_decode (bs : bytes) : option str :=
  match bs with
  | [] => Some []
  | b0 :: r0 =>
    if b0 <? 0x80 then cons b0 <$> utf8_decode r0
    else
      match r0 with
      | [] => None
      | b1 :: r1 =>
        if (0xC0 <=? b0) && (b0 <=? 0xDF) then
          let c := (b0 - 0xC0) * 64 + (b1 - 0x80) in
          if cont b1 && (0x80 <=? c) then cons c <$> utf8_decode r1 else None
        else
          match r1 with
          | [] => None
          | b2 :: r2 =>
            if (0xE0 <=? b0) && (b0 <=? 0xEF) then
              let c := (b0 - 0xE0) * 4096 + (b1 - 0x80) * 64 + (b2 - 0x80) in
              if cont b1 && cont b2 && (0x800 <=? c) && negb (surrogate c)
              then cons c <$> utf8_decode r2 else None
            else
              match r2 with
              | [] => None
              | b3 :: r3 =>
                if (0xF0 <=? b0) && (b0 <=? 0xF4) then
                  let c := (b0 - 0xF0) * 262144 + (b1 - 0x80) * 4096
                           + (b2 - 0x80) * 64 + (b3 - 0x80) in
                  if cont b1 && cont b2 && cont b3
                     && (0x10000 <=? c) && (c <=? 0x10FFFF)
                  then cons c <$> utf8_decode r3 else None
                else None
              end
          end
      end
  end.

Definition utf8_encode_cp (c : N) : option bytes :=
  if c <? 0x80 then Some [c]
  else if c <? 0x800 then Some [0xC0 + c / 64; 0x80 + c mod 64]
  else if c <? 0x10000 then
    if surrogate c then None
    else Some [0xE0 + c / 4096; 0x80 + (c / 64) mod 64; 0x80 + c mod 64]
  else if c <=? 0x10FFFF then
    Some [0xF0 + c / 262144; 0x80 + (c / 4096) mod 64;
          0x80 + (c / 64) mod 64; 0x80 + c mod 64]
  else None.

Fixpoint utf8_encode (s : str) : option bytes :=
  match s with
  | [] => Some []
  | c :: r =>
    match utf8_encode_cp c, utf8_encode r with
    | Some b, Some bs => Some (b ++ bs)
    | _, _ => None
    end
  end.

(** A [str] literal of the source file, which is UTF-8 text. *)
Definition u (s : string) : str := default [] (utf8_decode (octets s)).

(** WSGI hands header values to the application decoded as Latin-1: one code
    point per octet. *)
Definition latin1 (s : string) : str := octets s.

(** ** SHA-256 (FIPS 180-4) and HMAC (RFC 2104), as [hashlib.sha256] and
    [hmac.new(key, msg, hashlib.sha256)] compute them.  Words are 32-bit
    naturals with the wrap-around written out. *)

Module SHA256.

Definition w32 (x : N) : N := x mod 4294967296.
Definition add32 (a b : N) : N := w32 (a + b).
Definition rotr (n x : N) : N := N.lor (N.shiftr x n) (w32 (N.shiftl x (32 - n))).
Definition not32 (x : N) : N := N.lxor x 0xFFFFFFFF.

Definition Ch (x y z : N) : N := N.lxor (N.land x y) (N.land (not32 x) z).
Definition Maj (x y z : N) : N :=
  N.lxor (N.lxor (N.land x y) (N.land x z)) (N.land y z).
Definition bsig0 (x : N) : N := N.lxor (N.lxor (rotr 2 x) (rotr 13 x)) (rotr 22 x).
Definition bsig1 (x : N) : N := N.lxor (N.lxor (rotr 6 x) (rotr 11 x)) (rotr 25 x).
Definition ssig0 (x : N) : N := N.lxor (N.lxor (rotr 7 x) (rotr 18 x)) (N.shiftr x 3).
Definition ssig1 (x : N) : N := N.lxor (N.lxor (rotr 17 x) (rotr 19 x)) (N.shiftr x 10).

(** The first [n] primes at or above [p], by trial division. *)
Definition is_prime (p : N) : bool :=
  forallb (fun q => negb (p mod q =? 0)) (map N.of_nat (seq 2 (N.to_nat p - 2))).

Fixpoint primes (fuel n : nat) (p : N) : list N :=
  match fuel, n with
  | S f, S k => if is_prime p then p :: primes f k (p + 1) else primes f n (p + 1)
  | _, _ => []
  end.

(** The integer cube root, one bit after the other. *)
Definition icbrt (x : N) : N :=
  fold_left (fun r b => let r' := r + 2 ^ N.of_nat b in
                        if r' * r' * r' <=? x then r' else r)
            (rev (seq 0 36)) 0.

(** The round constants: the first 32 bits of the fractional parts of the
    cube roots of the first 64 primes. *)
Definition K : list N :=
  Eval vm_compute in map (fun p => w32 (icbrt (p * 2 ^ 96))) (primes 400 64 2).

(** The initial hash value: the first 32 bits of the fractional parts of the
    square roots of the first 8 primes. *)
Definition H0 : list N :=
  Eval vm_compute in map (fun p => w32 (N.sqrt (p * 2 ^ 64))) (primes 400 8 2).

(** Big-endian octets of an [n]-octet quantity. *)
Fixpoint be (n : nat) (x : N) : bytes :=
  match n with
  | O => []
  | S k => be k (x / 256) ++ [x mod 256]
  end.

Definition pad (msg : bytes) : bytes :=
  let len := N.of_nat (length msg) in
  let k := (64 - (len + 9) mod 64) mod 64 in
  msg ++ [0x80] ++ repeat 0 (N.to_nat k) ++ be 8 (8 * len).

Fixpoint words (bs : bytes) : list N :=
  match bs with
  | a :: b :: c :: d :: r => ((a * 256 + b) * 256 + c) * 256 + d :: words r
  | _ => []
  end.

Fixpoint blocks (fuel : nat) (ws : list N) : list (list N) :=
  match fuel, ws with
  | S f, _ :: _ => take 16 ws :: blocks f (drop 16 ws)
  | _, _ => []
  end.

(** The message schedule, newest word first. *)
Fixpoint schedule (n : nat) (w : list N) : list N :=
  match n with
  | O => w
  | S k =>
    let x := add32 (add32 (ssig1 (nth 1 w 0)) (nth 6 w 0))
                   (add32 (ssig0 (nth 14 w 0)) (nth 15 w 0)) in
    schedule k (x :: w)
  end.

Definition round (st : list N) (kw : N * N) : list N :=
  match st with
  | [a; b; c; d; e; f; g; h] =>
    let t1 := add32 (add32 (add32 h (bsig1 e)) (add32 (Ch e f g) kw.1)) kw.2 in
    let t2 := add32 (bsig0 a) (Maj a b c) in
    [add32 t1 t2; a; b; c; add32 d t1; e; f; g]
  | _ => st
  end.

Definition compress (h : list N) (block : list N) : list N :=
  let w := rev (schedule 48 (rev block)) in
  zip_with add32 h (fold_left round (zip K w) h).

Definition sha256 (msg : bytes) : bytes :=
  let ws := words (pad msg) in
  flat_map (be 4) (fold_left compress (blocks (length ws) ws) H0).

Definition block_size : nat := 64.

Definition hmac (key msg : bytes) : bytes :=
  let k0 := if (block_size <? length key)%nat then sha256 key else key in
  let k := k0 ++ repeat 0 (block_size - length k0) in
  sha256 (map (N.lxor 0x5c) k ++ sha256 (map (N.lxor 0x36) k ++ msg)).

End SHA256.

Definition hex_digit (n : N) : N := if n <? 10 then 48 + n else 87 + n.

(** [.hexdigest()]: two lower-case hexadecimal digits per octet. *)
Definition hexdigest (d : bytes) : str :=
  flat_map (fun b => [hex_digit (b / 16 mod 16); hex_digit (b mod 16)]) d.

Definition show (s : str) : string :=
  string_of_list_ascii (map ascii_of_N s).


(** ** Built-ins used by the receiver *)

(** White space beyond ASCII, as [str.isspace] has it. *)
Definition unicode_space (c : N) : bool :=
  (c =? 0x85) || (c =? 0xA0) || (c =? 0x1680)
  || ((0x2000 <=? c) && (c <=? 0x200A))
  || (c =? 0x2028) || (c =? 0x2029) || (c =? 0x202F) || (c =? 0x205F)
  || (c =? 0x3000).

(** White space that [int()] skips at both ends of its argument: the ASCII
    tab, line feed, vertical tab, form feed, carriage return and space, and
    the white space beyond ASCII.  The separators U+001C..U+001F are not
    skipped by [int()]. *)
Definition py_space (c : N) : bool :=
  ((9 <=? c) && (c <=? 13)) || (c =? 32) || unicode_space c.

Fixpoint lstrip (s : str) : str :=
  match s with
  | c :: r => if py_space c then lstrip r else s
  | [] => []
  end.

Definition strip (s : str) : str := rev (lstrip (rev (lstrip s))).

(** The zeros of the decimal digits of Unicode 14.0 (the version of
    CPython 3.11): each is followed by its digits one to nine. *)
Definition decimal_zeros : list N :=
  [
    0x30; 0x660; 0x6F0; 0x7C0; 0x966; 0x9E6; 0xA66; 0xAE6;
    0xB66; 0xBE6; 0xC66; 0xCE6; 0xD66; 0xDE6; 0xE50; 0xED0;
    0xF20; 0x1040; 0x1090; 0x17E0; 0x1810; 0x1946; 0x19D0; 0x1A80;
    0x1A90; 0x1B50; 0x1BB0; 0x1C40; 0x1C50; 0xA620; 0xA8D0; 0xA900;
    0xA9D0; 0xA9F0; 0xAA50; 0xABF0; 0xFF10; 0x104A0; 0x10D30; 0x11066;
    0x110F0; 0x11136; 0x111D0; 0x112F0; 0x11450; 0x114D0; 0x11650; 0x116C0;
    0x11730; 0x118E0; 0x11950; 0x11C50; 0x11D50; 0x11DA0; 0x16A60; 0x16AC0;
    0x16B50; 0x1D7CE; 0x1D7D8; 0x1D7E2; 0x1D7EC; 0x1D7F6; 0x1E140; 0x1E2F0;
    0x1E950; 0x1FBF0 ].

(** The value of a decimal digit, ASCII or not. *)
Definition digit (c : N) : option Z :=
  match find (fun z => (z <=? c) && (c <=? z + 9)) decimal_zeros with
  | Some z => Some (Z.of_N (c - z))
  | None => None
  end.

(** Decimal digits, with single underscores allowed between two digits. *)
Fixpoint digits (acc : Z) (after_digit : bool) (s : str) : option Z :=
  match s with
  | [] => if after_digit then Some acc else None
  | c :: r =>
    match digit c with
    | Some d => digits (acc * 10 + d)%Z true r
    | None => if (c =? 95) && after_digit then digits acc false r else None
    end
  end.

(** [sys.int_info.default_max_str_digits]: the longest run of digits that
    [int()] and [str()] convert. *)
Definition max_str_digits : nat := 4300.

Fixpoint digit_count (s : str) : nat :=
  match s with
  | [] => O
  | c :: r =>
    match digit c with
    | Some _ => S (digit_count r)
    | None => digit_count r
    end
  end.

(** A run of digits, refused when it has more digits than the limit. *)
Definition capped (r : str) : option Z :=
  if (max_str_digits <? digit_count r)%nat then None else digits 0 false r.

(** [int(s)] for a [str] in base 10: [None] stands for [ValueError]. *)
Definition int_ (s : str) : option Z :=
  match strip s with
  | 43 :: r => capped r
  | 45 :: r => Z.opp <$> capped r
  | r => capped r
  end.

Definition is_ascii (s : str) : bool := forallb (fun c => c <? 128) s.

(** ** Python objects *)

#[local] Set Warnings "-register-all".

(** What [request.json] can hold. *)
Inductive value : Type :=
| VNone
| VBool (b : bool)
| VInt (z : Z)
| VFloat (binary64 : N)
| VStr (s : str)
| VList (l : list value)
| VDict (d : list (str * value)).

(** [d.get(k)]: the value stored under [k], or [None]. *)
Fixpoint dict_get (d : list (str * value)) (k : str) : value :=
  match d with
  | [] => VNone
  | (k', v) :: r => if str_eqb k' k then v else dict_get r k
  end.

(** [v == s] for a [str] literal [s]. *)
Definition eq_str (v : value) (s : str) : bool :=
  match v with
  | VStr s' => str_eqb s' s
  | _ => false
  end.

(** The exceptions the receiver can meet; all derive from [Exception]. *)
Inductive exn : Type :=
| ValueError (literal : str)      (* int(): invalid literal *)
| TypeError                       (* compare_digest: non-ASCII str *)
| AttributeError (receiver : value) (* .get on something that is no dict *)
| UnicodeDecodeError (input : bytes)
| UnicodeEncodeError (input : str)
| BadRequest                      (* request.json: body is no JSON *)
| UnsupportedMediaType            (* request.json: no JSON content type *)
| ValueError_digits.              (* str(): an int of too many digits *)

(** One call of [print]. *)
Inductive line : Type :=
| Line (text : str)                    (* print('text') *)
| LineV (prefix : str) (v : value)     (* print(f"prefix{v}") *)
| LineE (prefix : str) (e : exn).      (* print(f"prefix{str(e)}") *)

Inductive event : Type :=
| Print (l : line)
| HmacNew (key msg : bytes).           (* hmac.new(key, msg, sha256) *)

(** The process state a request handler runs in: the clock as
    [int(time.time())] reads it, and what has been printed and computed so
    far, oldest first. *)
Record World : Type := { clock : Z; trace : list event }.

Definition emit (e : event) (w : World) : World :=
  {| clock := clock w; trace := trace w ++ [e] |}.

Definition stdout (w : World) : list line :=
  omap (fun e => match e with Print l => Some l | HmacNew _ _ => None end)
       (trace w).

Definition digests (w : World) : list (bytes * bytes) :=
  omap (fun e => match e with HmacNew k m => Some (k, m) | Print _ => None end)
       (trace w).

(** ** Computations that print, read the clock and raise *)

Definition Py (A : Type) : Type := World -> (exn + A) * World.

#[global] Instance Py_ret : MRet Py := fun A a w => (inr a, w).

#[global] Instance Py_bind : MBind Py := fun A B k m w =>
  match m w with
  | (inl e, w') => (inl e, w')
  | (inr a, w') => k a w'
  end.

Definition raise {A : Type} (e : exn) : Py A := fun w => (inl e, w).

(** [try: m except Exception as e: h e] *)
Definition try_except {A : Type} (m : Py A) (h : exn -> Py A) : Py A := fun w =>
  match m w with
  | (inl e, w') => h e w'
  | (inr a, w') => (inr a, w')
  end.

(** A lone surrogate cannot be written to standard output (UTF-8). *)
Definition has_surrogate (s : str) : bool := existsb surrogate s.

(** An [int] of more than [max_str_digits] digits, in the value or inside
    it: [str()] and [repr()] refuse to convert it. *)
Fixpoint too_long (v : value) : bool :=
  match v with
  | VInt z => (10 ^ Z.of_nat max_str_digits <=? Z.abs z)%Z
  | VList l => existsb too_long l
  | VDict d => existsb (fun kv => let (_, x) := kv : str * value in too_long x) d
  | _ => false
  end.

(** The part of a line that is written as it stands: the text of the
    source, and an interpolated [str].  Every other value is written as its
    [repr], and an exception as its message; both escape what standard
    output could not encode. *)
Definition raw_text (l : line) : str :=
  match l with
  | Line text => text
  | LineV prefix (VStr s) => prefix ++ s
  | LineV prefix _ => prefix
  | LineE prefix _ => prefix
  end.

(** What [print] raises on a line, if anything: [ValueError] while the
    f-string is formatted, [UnicodeEncodeError] when the text is written. *)
Definition print_error (l : line) : option exn :=
  match l with
  | LineV _ v =>
    if too_long v then Some ValueError_digits
    else if has_surrogate (raw_text l) then Some (UnicodeEncodeError (raw_text l))
    else None
  | _ =>
    if has_surrogate (raw_text l) then Some (UnicodeEncodeError (raw_text l))
    else None
  end.

(** [print(l)]: the line is written whole or not at all. *)
Definition print (l : line) : Py unit := fun w =>
  match print_error l with
  | Some e => (inl e, w)
  | None => (inr tt, emit (Print l) w)
  end.

(** [int(time.time())] *)
Definition time_time : Py Z := fun w => (inr (clock w), w).

Definition int (s : str) : Py Z :=
  match int_ s with
  | Some z => mret z
  | None => raise (ValueError s)
  end.

(** [s.encode('utf-8')] *)
Definition encode (s : str) : Py bytes :=
  match utf8_encode s with
  | Some b => mret b
  | None => raise (UnicodeEncodeError s)
  end.

(** [b.decode('utf-8')] *)
Definition decode (b : bytes) : Py str :=
  match utf8_decode b with
  | Some s => mret s
  | None => raise (UnicodeDecodeError b)
  end.

(** [hmac.new(key, msg, hashlib.sha256).hexdigest()] *)
Definition hmac_new_hexdigest (key msg : bytes) : Py str := fun w =>
  (inr (hexdigest (SHA256.hmac key msg)), emit (HmacNew key msg) w).

(** [hmac.compare_digest(a, b)] on two [str]: both must be ASCII. *)
Definition compare_digest (a b : str) : Py bool :=
  if is_ascii a && is_ascii b then mret (str_eqb a b) else raise TypeError.

(** [event.get(k)]: only a [dict] has the method. *)
Definition get (event : value) (k : str) : Py value :=
  match event with
  | VDict d => mret (dict_get d k)
  | _ => raise (AttributeError event)
  end.

(** ** The Flask request and response *)

(** [request]: the header fields by name (in the spelling the receiver asks
    for them; Werkzeug matches names without regard to case), each value as
    its octets on the wire; the body octets [request.data]; and
    [request.json], the body as Flask parsed it or the exception the parse
    raises (no JSON content type, or a body that is no JSON).  The parse is
    Flask's: the statements below hold for whatever it yields. *)
Record Request : Type := {
  headers : gmap string string;
  data : bytes;
  json : exn + value
}.

(** [request.headers.get(name)] *)
Definition headers_get (request : Request) (name : string) : option str :=
  latin1 <$> headers request !! name.

(** Truth value of an optional [str]: [None] and [''] are false. *)
Definition truthy (o : option str) : bool :=
  match o with
  | Some (_ :: _) => true
  | _ => false
  end.

Definition str_of (o : option str) : str := default [] o.

Definition value_of (o : option str) : value :=
  match o with
  | Some s => VStr s
  | None => VNone
  end.

Definition request_json (request : Request) : Py value :=
  match json request with
  | inr v => mret v
  | inl e => raise e
  end.

(** The body of a response: a [str] returned as it is, or [jsonify(v)]. *)
Inductive Body : Type :=
| Text (s : str)
| Jsonify (v : value).

Record Response : Type := { body : Body; status : Z }.

Definition nl : str := [10].

Definition rule : str := u "━━━━━━━━━━━━━━━━━━━━━━━━━━━━━━━━━━━━━━━".

(** ** The receiver *)

Definition placeholder : str := u "whsec_your_secret_here".

(** [WEBHOOK_SECRET = os.environ.get('WEBHOOK_SECRET', 'whsec_your_secret_here')] *)
Definition load_secret (environ : gmap string str) : str :=
  default placeholder (environ !! "WEBHOOK_SECRET"%string).

Section Receiver.

Variable WEBHOOK_SECRET : str.

Definition verify_webhook_signature (payload signature timestamp : str)
  : Py bool :=
  (* Reject old requests (older than 5 minutes) *)
  current_time ← time_time;
  t ← int timestamp;
  if (300 <? Z.abs (current_time - t))%Z then
    print (Line (u "⚠️  Request timestamp too old"));;
    mret false
  else
    (* Compute expected signature *)
    let sig_basestring := timestamp ++ u "." ++ payload in
    key ← encode WEBHOOK_SECRET;
    msg ← encode sig_basestring;
    digest ← hmac_new_hexdigest key msg;
    let expected_signature := u "v1=" ++ digest in
    (* Compare signatures using timing-safe comparison *)
    compare_digest expected_signature signature.

Definition webhook (request : Request) : Py Response :=
  let signature := headers_get request "X-Webhook-Signature" in
  let timestamp := headers_get request "X-Webhook-Timestamp" in
  let webhook_id := headers_get request "X-Webhook-Id" in
  if negb (truthy signature) || negb (truthy timestamp) then
    mret {| body := Text (u "Missing signature headers"); status := 401 |}
  else
    payload ← decode (data request);
    print (Line (nl ++ rule));;
    print (Line (u "📨 Webhook received"));;
    print (Line rule);;
    try_except
      (event ← request_json request;
       (* Handle verification requests *)
       ty ← get event (u "type");
       if eq_str ty (u "webhook.verification") then
         print (Line (u "🔍 Webhook verification request (Stripe-style)"));;
         token ← get event (u "verification_token");
         print (LineV (u "   Token: ") token);;
         print (Line (u "✅ Responding with 200 OK" ++ nl));;
         mret {| body := Text (u "OK"); status := 200 |}
       else
         ty ← get event (u "type");
         if eq_str ty (u "url_verification") then
           print (Line (u "🔍 URL verification request (Slack-style)"));;
           challenge ← get event (u "challenge");
           print (LineV (u "   Challenge: ") challenge);;
           print (Line (u "✅ Responding with challenge" ++ nl));;
           challenge ← get event (u "challenge");
           mret {| body := Jsonify (VDict [(u "challenge", challenge)]);
                   status := 200 |}
         else
           (* Verify signature *)
           ok ← verify_webhook_signature payload (str_of signature)
                                         (str_of timestamp);
           if negb ok then
             print (Line (u "❌ Invalid signature!"));;
             mret {| body := Text (u "Invalid signature"); status := 401 |}
           else
             print (Line (u "✅ Signature verified"));;
             print (Line (u "📋 Event details:"));;
             id ← get event (u "id");
             print (LineV (u "   ID: ") id);;
             ty ← get event (u "type");
             print (LineV (u "   Type: ") ty);;
             print (LineV (u "   Webhook ID: ") (value_of webhook_id));;
             print (Line (nl ++ u "📦 Event data:"));;
             d ← get event (u "data");
             print (LineV [] d);;
             print (Line (nl ++ u "✅ Webhook processed successfully" ++ nl));;
             mret {| body := Text (u "OK"); status := 200 |})
      (fun e =>
         print (LineE (u "❌ Error processing webhook: ") e);;
         mret {| body := Text (u "Invalid payload"); status := 400 |}).

(** The start-up banner of [__main__], up to [app.run]. *)
Definition main : Py unit :=
  print (Line (nl ++ rule));;
  print (Line (u "🎯 Python Webhook Receiver"));;
  print (Line rule);;
  print (Line (u "✅ Server running on http://localhost:5000"));;
  print (LineV (u "⚙️  Secret configured: ")
               (VBool (negb (str_eqb WEBHOOK_SECRET placeholder))));;
  print (Line (rule ++ nl));;
  print (Line (u "Waiting for webhooks..." ++ nl)).

End Receiver.

(** ** Vocabulary of the statements *)

(** The world after a run of events. *)
Definition emits (l : list event) (w : World) : World :=
  fold_left (fun w e => emit e w) l w.

(** What every request that passes the header gate and decodes prints first. *)
Definition received : list event :=
  [ Print (Line (nl ++ rule));
    Print (Line (u "📨 Webhook received"));
    Print (Line rule) ].

Definition too_old : event := Print (Line (u "⚠️  Request timestamp too old")).

(** What a client can see of a run: the response (or the exception that
    escapes) and the printed lines; the calls of [hmac.new] are internal. *)
Definition observable {A : Type} (x : (exn + A) * World) : (exn + A) * list line :=
  (x.1, stdout x.2).

(** The UTF-8 octets of a header value: the value itself when it is ASCII. *)
Definition utf8_of_latin1 (s : string) : bytes :=
  flat_map (fun c => if c <? 0x80 then [c] else [0xC0 + c / 64; 0x80 + c mod 64])
           (octets s).

(** The signed message as the specification words it:
    [timestampHeader + "." + rawBody]. *)
Definition spec_message (timestampHeader : string) (rawBody : bytes) : bytes :=
  utf8_of_latin1 timestampHeader ++ octets "." ++ rawBody.

(** The expected signature as the specification words it:
    ["v1=" + hex(HMAC-SHA256(key = secret, message))]. *)
Definition spec_expected_signature
    (secret : bytes) (timestampHeader : string) (rawBody : bytes) : str :=
  u "v1=" ++ hexdigest (SHA256.hmac secret (spec_message timestampHeader rawBody)).

(** The body parsed into a keyed document (a JSON object). *)
Definition keyed_document (j : exn + value) : bool :=
  match j with
  | inr (VDict _) => true
  | _ => false
  end.

(** The request is one that [webhook] hands to [verify_webhook_signature]:
    both headers non-empty, a body that decodes, a JSON object whose [type]
    is neither handshake. *)
Definition reaches_verifier (request : Request) : bool :=
  truthy (headers_get request "X-Webhook-Signature")
  && truthy (headers_get request "X-Webhook-Timestamp")
  && bool_decide (is_Some (utf8_decode (data request)))
  && match json request with
     | inr (VDict d) =>
       negb (eq_str (dict_get d (u "type")) (u "webhook.verification"))
       && negb (eq_str (dict_get d (u "type")) (u "url_verification"))
     | _ => false
     end.

(** [needle in hay] *)
Fixpoint is_prefix (p s : str) : bool :=
  match p, s with
  | [], _ => true
  | a :: p', b :: s' => (a =? b) && is_prefix p' s'
  | _ :: _, [] => false
  end.

Fixpoint contains (needle hay : str) : bool :=
  is_prefix needle hay ||
  match hay with
  | [] => false
  | _ :: r => contains needle r
  end.

(** Some string inside the value contains [needle]. *)
Fixpoint mentions (needle : str) (v : value) : bool :=
  match v with
  | VStr s => contains needle s
  | VList l => existsb (mentions needle) l
  | VDict d =>
    existsb (fun kv => let (k, x) := kv : str * value in
                       contains needle k || mentions needle x) d
  | _ => false
  end.

Definition body_contains (needle : str) (b : Body) : bool :=
  match b with
  | Text s => contains needle s
  | Jsonify v => mentions needle v
  end.

(** ** Sample requests *)

(** The octets of a JSON text written with apostrophes for its quotes. *)
Definition json_text (s : string) : bytes :=
  map (fun c => if c =? 39 then 34 else c) (octets s).

Definition signed_headers (signature timestamp : string) : gmap string string :=
  <["X-Webhook-Signature"%string := signature]>
    (<["X-Webhook-Timestamp"%string := timestamp]> ∅).

(** Handshake style A, no signature headers. *)
Definition handshake_A_bare : Request :=
  {| headers := ∅;
     data := json_text "{'type':'webhook.verification','verification_token':'tok_123'}";
     json := inr (VDict [ (u "type", VStr (u "webhook.verification"));
                          (u "verification_token", VStr (u "tok_123")) ]) |}.

(** Handshake style A with both headers, holding values nobody verifies. *)
Definition handshake_A_signed : Request :=
  {| headers := signed_headers "anything" "whenever";
     data := data handshake_A_bare;
     json := json handshake_A_bare |}.

(** Handshake style A whose signature header is present and empty. *)
Definition handshake_A_empty_signature : Request :=
  {| headers := signed_headers "" "1700000000";
     data := data handshake_A_bare;
     json := json handshake_A_bare |}.

(** Handshake style B. *)
Definition challenge_bare : Request :=
  {| headers := ∅;
     data := json_text "{'type':'url_verification','challenge':'abc'}";
     json := inr (VDict [ (u "type", VStr (u "url_verification"));
                          (u "challenge", VStr (u "abc")) ]) |}.

Definition challenge_signed : Request :=
  {| headers := signed_headers "anything" "whenever";
     data := data challenge_bare;
     json := json challenge_bare |}.

(** Handshake style B whose challenge is the placeholder secret. *)
Definition challenge_placeholder : Request :=
  {| headers := signed_headers "anything" "whenever";
     data := json_text "{'type':'url_verification','challenge':'whsec_your_secret_here'}";
     json := inr (VDict [ (u "type", VStr (u "url_verification"));
                          (u "challenge", VStr placeholder) ]) |}.

(** The empty event [{}] stamped 100 and signed with the placeholder secret. *)
Definition signature_100 : string :=
  "v1=6180ea0f64d1eb029a6caa75ab2081f96f3d6411f67ff85c0b8ef8b11967b01b".

Definition signed_event : Request :=
  {| headers := signed_headers signature_100 "100";
     data := octets "{}";
     json := inr (VDict []) |}.

(** The same event with a time stamp that is no integer. *)
Definition event_bad_timestamp : Request :=
  {| headers := signed_headers signature_100 "abc";
     data := octets "{}";
     json := inr (VDict []) |}.

(** A body that is no JSON, without signature headers and with headers
    correctly computed over it under the placeholder secret. *)
Definition garbage_bare : Request :=
  {| headers := ∅; data := octets "not json"; json := inl BadRequest |}.

Definition garbage_signature : string :=
  "v1=6b71c7e737bf365d373e7e7a13bc6151594ee3f910f5a3b4f38b06d68db4e540".

Definition garbage_signed : Request :=
  {| headers := signed_headers garbage_signature "100";
     data := octets "not json";
     json := inl BadRequest |}.

(** A JSON array: it parses, and is no keyed document. *)
Definition array_signed : Request :=
  {| headers := signed_headers "v1=00" "100";
     data := octets "[1,2]";
     json := inr (VList [VInt 1; VInt 2]) |}.

(** A body that is not UTF-8. *)
Definition undecodable_signed : Request :=
  {| headers := signed_headers "v1=00" "100";
     data := [0xFF];
     json := inl BadRequest |}.

(** The end-to-end scenario of the specification. *)
Definition scenario : Request :=
  {| headers :=
       signed_headers
         "v1=af2b4d168f9c4014deed4153f6b3ab3d4982cebe26978b7b27c55913891e85ef"
         "1700000000";
     data := json_text "{'type':'payment.succeeded','id':'evt_1'}";
     json := inr (VDict [ (u "type", VStr (u "payment.succeeded"));
                          (u "id", VStr (u "evt_1")) ]) |}.

Definition at_ (now : Z) : World := {| clock := now; trace := [] |}.

(** ** The other route, and further vocabulary *)

(** [home]: the health check of route [/]. *)
Definition home : Py Response :=
  mret {| body := Jsonify (VDict
            [ (u "status", VStr (u "ok"));
              (u "message", VStr (u "Python webhook receiver"));
              (u "endpoints", VDict [(u "webhook", VStr (u "POST /webhook"))]) ]);
          status := 200 |}.

(** The four fixed answers of [webhook]. *)
Definition missing_headers_401 : Response :=
  {| body := Text (u "Missing signature headers"); status := 401 |}.

Definition invalid_payload_400 : Response :=
  {| body := Text (u "Invalid payload"); status := 400 |}.

Definition invalid_signature_401 : Response :=
  {| body := Text (u "Invalid signature"); status := 401 |}.

Definition ok_200 : Response := {| body := Text (u "OK"); status := 200 |}.

(** A digit of [0-9a-f]. *)
Definition lower_hex (c : N) : bool :=
  ((48 <=? c) && (c <=? 57)) || ((97 <=? c) && (c <=? 102)).

(** A character [int()] can accept: white space, a sign, a digit, an
    underscore. *)
Definition int_char (c : N) : bool :=
  py_space c || (c =? 43) || (c =? 45) || (c =? 95)
  || match digit c with Some _ => true | None => false end.

(** The event [{}] stamped 100 with a signature that is not the right one. *)
Definition forged_event : Request :=
  {| headers := signed_headers "v1=00" "100";
     data := octets "{}";
     json := inr (VDict []) |}.

(** The same event with a signature header that is not ASCII. *)
Definition exotic_event : Request :=
  {| headers := signed_headers "v1=é" "100";
     data := octets "{}";
     json := inr (VDict []) |}.

(** The correctly signed event with an [X-Webhook-Id]. *)
Definition identified_event : Request :=
  {| headers := <["X-Webhook-Id"%string := "wh_42"%string]>
                  (signed_headers signature_100 "100");
     data := octets "{}";
     json := inr (VDict []) |}.

(** A value that [print] can write in an f-string: no [int] of too many
    digits in it, and no lone surrogate if it is a [str]. *)
Definition printable (v : value) : bool :=
  negb (too_long v)
  && match v with
     | VStr s => negb (has_surrogate s)
     | _ => true
     end.

(** Lines printed one after the other: the ones that get written, and the
    exception of the first one that does not. *)
Fixpoint printed (ls : list line) : list line * option exn :=
  match ls with
  | [] => ([], None)
  | l :: ls =>
    match print_error l with
    | Some e => ([], Some e)
    | None => let (p, e) := printed ls in (l :: p, e)
    end
  end.

(** The end of the [try] block: lines are printed and a response returned;
    if a [print] raises, the [except] clause prints the exception and
    answers 400. *)
Definition answer (ls : list line) (resp : Response) (w : World)
  : (exn + Response) * World :=
  match printed ls with
  | (p, None) => (inr resp, emits (map Print p) w)
  | (p, Some e) =>
    (inr invalid_payload_400,
     emits (map Print p ++ [Print (LineE (u "❌ Error processing webhook: ") e)]) w)
  end.

(** What the three branches of the [try] block print. *)
Definition handshake_A_lines (d : list (str * value)) : list line :=
  [ Line (u "🔍 Webhook verification request (Stripe-style)");
    LineV (u "   Token: ") (dict_get d (u "verification_token"));
    Line (u "✅ Responding with 200 OK" ++ nl) ].

Definition handshake_B_lines (d : list (str * value)) : list line :=
  [ Line (u "🔍 URL verification request (Slack-style)");
    LineV (u "   Challenge: ") (dict_get d (u "challenge"));
    Line (u "✅ Responding with challenge" ++ nl) ].

Definition event_lines (d : list (str * value)) (webhook_id : option str)
  : list line :=
  [ Line (u "✅ Signature verified");
    Line (u "📋 Event details:");
    LineV (u "   ID: ") (dict_get d (u "id"));
    LineV (u "   Type: ") (dict_get d (u "type"));
    LineV (u "   Webhook ID: ") (value_of webhook_id);
    Line (nl ++ u "📦 Event data:");
    LineV [] (dict_get d (u "data"));
    Line (nl ++ u "✅ Webhook processed successfully" ++ nl) ].

(** A handshake whose token is a lone surrogate. *)
Definition handshake_A_surrogate : Request :=
  {| headers := signed_headers "anything" "whenever";
     data := json_text "{'type':'webhook.verification','verification_token':'\ud800'}";
     json := inr (VDict [ (u "type", VStr (u "webhook.verification"));
                          (u "verification_token", VStr [0xD800]) ]) |}.

(** * Properties *)

Lemma fmap_cons_Some (c : N) (o : option str) (s : str) :
  cons c <$> o = Some s -> exists s', o = Some s' /\ s = c :: s'.
Proof. destruct o as [s'|]; simpl; [|discriminate]. intros [= <-]. eauto. Qed.

Lemma utf8_encode_cons c r b bs :
  utf8_encode_cp c = Some b -> utf8_encode r = Some bs ->
  utf8_encode (c :: r) = Some (b ++ bs).
Proof. intros Hc Hr. simpl. rewrite Hc, Hr. reflexivity. Qed.

Ltac Zify.zify_post_hook ::= Z.to_euclidean_division_equations.

Ltac unbool :=
  repeat match goal with
  | H : _ && _ = true |- _ => apply andb_true_iff in H; destruct H
  | H : negb _ = true |- _ => apply negb_true_iff in H
  | H : (_ <=? _) = true |- _ => apply N.leb_le in H
  | H : (_ <=? _) = false |- _ => apply N.leb_gt in H
  | H : (_ <? _) = true |- _ => apply N.ltb_lt in H
  | H : (_ <? _) = false |- _ => apply N.ltb_ge in H
  | H : _ && _ = false |- _ => apply andb_false_iff in H
  end.

Lemma utf8_roundtrip_aux (n : nat) :
  forall bs, (length bs <= n)%nat ->
  forall s, utf8_decode bs = Some s -> utf8_encode s = Some bs.
Proof.
  induction n as [|n IH]; intros bs Hlen s H.
  - destruct bs; [|simpl in Hlen; lia]. injection H as <-. reflexivity.
  - destruct bs as [|b0 r0]; [injection H as <-; reflexivity|].
    simpl in H, Hlen.
    destruct (b0 <? 0x80) eqn:E0.
    { apply fmap_cons_Some in H as (s' & H & ->).
      apply IH in H; [|lia].
      change (b0 :: r0) with ([b0] ++ r0). apply utf8_encode_cons; [|exact H].
      unfold utf8_encode_cp. rewrite E0. reflexivity. }
    destruct r0 as [|b1 r1]; [discriminate|]. simpl in Hlen.
    destruct ((0xC0 <=? b0) && (b0 <=? 0xDF)) eqn:E1.
    { cbv zeta in H.
      destruct (cont b1 && (0x80 <=? (b0 - 0xC0) * 64 + (b1 - 0x80))) eqn:E2;
        [|discriminate].
      apply fmap_cons_Some in H as (s' & H & ->).
      apply IH in H; [|lia].
      change (b0 :: b1 :: r1) with ([b0; b1] ++ r1).
      apply utf8_encode_cons; [|exact H].
      unfold cont in E2. unbool.
      unfold utf8_encode_cp.
      destruct (N.ltb_spec ((b0 - 0xC0) * 64 + (b1 - 0x80)) 0x80); [lia|].
      destruct (N.ltb_spec ((b0 - 0xC0) * 64 + (b1 - 0x80)) 0x800); [|lia].
      f_equal. repeat f_equal; lia. }
    destruct r1 as [|b2 r2]; [discriminate|]. simpl in Hlen.
    destruct ((0xE0 <=? b0) && (b0 <=? 0xEF)) eqn:E2.
    { cbv zeta in H.
      set (c := (b0 - 0xE0) * 4096 + (b1 - 0x80) * 64 + (b2 - 0x80)) in *.
      destruct (cont b1 && cont b2 && (0x800 <=? c) && negb (surrogate c)) eqn:E3;
        [|discriminate].
      apply fmap_cons_Some in H as (s' & H & ->).
      apply IH in H; [|lia].
      change (b0 :: b1 :: b2 :: r2) with ([b0; b1; b2] ++ r2).
      apply utf8_encode_cons; [|exact H].
      unfold cont in E3. unbool.
      unfold utf8_encode_cp.
      destruct (N.ltb_spec c 0x80); [lia|].
      destruct (N.ltb_spec c 0x800); [lia|].
      destruct (N.ltb_spec c 0x10000); [|lia].
      match goal with Hs : surrogate c = false |- _ => rewrite Hs end.
      f_equal. subst c. repeat f_equal; lia. }
    destruct r2 as [|b3 r3]; [discriminate|]. simpl in Hlen.
    destruct ((0xF0 <=? b0) && (b0 <=? 0xF4)) eqn:E3; [|discriminate].
    cbv zeta in H.
    set (c := (b0 - 0xF0) * 262144 + (b1 - 0x80) * 4096
              + (b2 - 0x80) * 64 + (b3 - 0x80)) in *.
    destruct (cont b1 && cont b2 && cont b3
              && (0x10000 <=? c) && (c <=? 0x10FFFF)) eqn:E4; [|discriminate].
    apply fmap_cons_Some in H as (s' & H & ->).
    apply IH in H; [|lia].
    change (b0 :: b1 :: b2 :: b3 :: r3) with ([b0; b1; b2; b3] ++ r3).
    apply utf8_encode_cons; [|exact H].
    unfold cont in E4. unbool.
    unfold utf8_encode_cp.
    destruct (N.ltb_spec c 0x80); [lia|].
    destruct (N.ltb_spec c 0x800); [lia|].
    destruct (N.ltb_spec c 0x10000); [lia|].
    destruct (N.leb_spec c 0x10FFFF); [|lia].
    f_equal. subst c. repeat f_equal; lia.
Qed.

Lemma utf8_roundtrip bs s :
  utf8_decode bs = Some s -> utf8_encode s = Some bs.
Proof. apply (utf8_roundtrip_aux (length bs)). lia. Qed.

Lemma utf8_encode_app s1 s2 b1 b2 :
  utf8_encode s1 = Some b1 -> utf8_encode s2 = Some b2 ->
  utf8_encode (s1 ++ s2) = Some (b1 ++ b2).
Proof.
  revert b1. induction s1 as [|c r IH]; intros b1 H1 H2.
  - injection H1 as <-. exact H2.
  - simpl in H1 |- *.
    destruct (utf8_encode_cp c) as [b|]; [|discriminate].
    destruct (utf8_encode r) as [bs|]; [|discriminate].
    injection H1 as <-. rewrite (IH bs eq_refl H2), <- app_assoc. reflexivity.
Qed.

Ltac boolean :=
  repeat first
    [ apply andb_true_intro; split
    | apply (proj2 (N.leb_le _ _)) | apply (proj2 (N.ltb_lt _ _))
    | apply (proj2 (N.ltb_ge _ _)) | apply (proj2 (N.leb_gt _ _)) ];
  try lia.

Lemma utf8_decode_1 b0 r :
  (b0 <? 0x80) = true -> utf8_decode (b0 :: r) = cons b0 <$> utf8_decode r.
Proof. intros H1. simpl. rewrite H1. reflexivity. Qed.

Lemma utf8_decode_2 b0 b1 r c :
  (b0 <? 0x80) = false ->
  (0xC0 <=? b0) && (b0 <=? 0xDF) = true ->
  (b0 - 0xC0) * 64 + (b1 - 0x80) = c ->
  cont b1 && (0x80 <=? c) = true ->
  utf8_decode (b0 :: b1 :: r) = cons c <$> utf8_decode r.
Proof. intros H1 H2 <- H3. simpl. rewrite H1, H2, H3. reflexivity. Qed.

Lemma utf8_decode_3 b0 b1 b2 r c :
  (b0 <? 0x80) = false ->
  (0xC0 <=? b0) && (b0 <=? 0xDF) = false ->
  (0xE0 <=? b0) && (b0 <=? 0xEF) = true ->
  (b0 - 0xE0) * 4096 + (b1 - 0x80) * 64 + (b2 - 0x80) = c ->
  cont b1 && cont b2 && (0x800 <=? c) && negb (surrogate c) = true ->
  utf8_decode (b0 :: b1 :: b2 :: r) = cons c <$> utf8_decode r.
Proof. intros H1 H2 H3 <- H4. simpl. rewrite H1, H2, H3, H4. reflexivity. Qed.

Lemma utf8_decode_4 b0 b1 b2 b3 r c :
  (b0 <? 0x80) = false ->
  (0xC0 <=? b0) && (b0 <=? 0xDF) = false ->
  (0xE0 <=? b0) && (b0 <=? 0xEF) = false ->
  (0xF0 <=? b0) && (b0 <=? 0xF4) = true ->
  (b0 - 0xF0) * 262144 + (b1 - 0x80) * 4096 + (b2 - 0x80) * 64 + (b3 - 0x80) = c ->
  cont b1 && cont b2 && cont b3 && (0x10000 <=? c) && (c <=? 0x10FFFF) = true ->
  utf8_decode (b0 :: b1 :: b2 :: b3 :: r) = cons c <$> utf8_decode r.
Proof.
  intros H1 H2 H3 H4 <- H5. simpl. rewrite H1, H2, H3, H4, H5. reflexivity.
Qed.

Lemma utf8_decode_cp c bc bs :
  utf8_encode_cp c = Some bc -> utf8_decode (bc ++ bs) = cons c <$> utf8_decode bs.
Proof.
  unfold utf8_encode_cp. intros H.
  destruct (N.ltb_spec c 0x80) as [H1|H1].
  { injection H as <-. apply utf8_decode_1. boolean. }
  destruct (N.ltb_spec c 0x800) as [H2|H2].
  { injection H as <-. apply utf8_decode_2; unfold cont; boolean. }
  destruct (N.ltb_spec c 0x10000) as [H3|H3].
  { destruct (surrogate c) eqn:Hs; [discriminate|].
    injection H as <-. apply utf8_decode_3; unfold cont; rewrite ?Hs; boolean;
      try reflexivity.
    apply andb_false_iff. right. boolean. }
  destruct (N.leb_spec c 0x10FFFF) as [H4|H4]; [|discriminate].
  injection H as <-. apply utf8_decode_4; unfold cont; boolean;
    apply andb_false_iff; right; boolean.
Qed.

(** X14.  What [str.encode('utf-8')] produces, [bytes.decode('utf-8')] reads
    back: a text that encodes is recovered from its octets. *)
Theorem X14_utf8_encode_decode (s : str) (b : bytes) :
  utf8_encode s = Some b -> utf8_decode b = Some s.
Proof.
  revert b. induction s as [|c r IH]; intros b H.
  - injection H as <-. reflexivity.
  - simpl in H.
    destruct (utf8_encode_cp c) as [bc|] eqn:Hc; [|discriminate].
    destruct (utf8_encode r) as [bs|]; [|discriminate].
    injection H as <-.
    rewrite (utf8_decode_cp c bc bs Hc), (IH bs eq_refl). reflexivity.
Qed.

Lemma X14_witness :
  utf8_decode [0x68; 0xC3; 0xA9; 0xE2; 0x82; 0xAC; 0xF0; 0x9F; 0x93; 0xA8]
  = Some [0x68; 0xE9; 0x20AC; 0x1F4E8].
Proof.
  apply (X14_utf8_encode_decode [0x68; 0xE9; 0x20AC; 0x1F4E8]).
  vm_compute. reflexivity.
Defined.

Example sha256_constants :
  hd 0 SHA256.K = 0x428a2f98 /\ last SHA256.K = Some 0xc67178f2
  /\ length SHA256.K = 64%nat
  /\ hd 0 SHA256.H0 = 0x6a09e667 /\ last SHA256.H0 = Some 0x5be0cd19.
Proof. vm_compute. repeat split. Qed.

Example sha256_abc :
  show (hexdigest (SHA256.sha256 (octets "abc")))
  = "ba7816bf8f01cfea414140de5dae2223b00361a396177a9cb410ff61f20015ad"%string.
Proof. vm_compute. reflexivity. Qed.

Example sha256_empty :
  show (hexdigest (SHA256.sha256 []))
  = "e3b0c44298fc1c149afbf4c8996fb92427ae41e4649b934ca495991b7852b855"%string.
Proof. vm_compute. reflexivity. Qed.

Example sha256_two_blocks :
  show (hexdigest (SHA256.sha256 (repeat 97 119)))
  = "31eba51c313a5c08226adf18d4a359cfdfd8d2e816b13f4af952f7ea6584dcfb"%string.
Proof. vm_compute. reflexivity. Qed.

Example sha256_56 :
  show (hexdigest (SHA256.sha256 (repeat 97 56)))
  = "b35439a4ac6f0948b6d6f9e3c6af0f5f590ce20f1bde7090ef7970686ec6738a"%string.
Proof. vm_compute. reflexivity. Qed.

Example sha256_64 :
  show (hexdigest (SHA256.sha256 (repeat 97 64)))
  = "ffe054fe7ae0cb6dc65c3af9b61d5209f439851db43d0ba5997337df154668eb"%string.
Proof. vm_compute. reflexivity. Qed.

Example hmac_long_key :
  show (hexdigest (SHA256.hmac (repeat 107 70) (octets "msg")))
  = "869b65e96f6aff0cfcb55ed40163b7d46e124a4213fa2232d61cca5e4a21256e"%string.
Proof. vm_compute. reflexivity. Qed.

Example hmac_placeholder :
  show (hexdigest (SHA256.hmac (octets "whsec_your_secret_here") (octets "100.{}")))
  = "6180ea0f64d1eb029a6caa75ab2081f96f3d6411f67ff85c0b8ef8b11967b01b"%string.
Proof. vm_compute. reflexivity. Qed.

(** ** The model against the interpreter *)

Example int_examples :
  int_ (u "12") = Some 12%Z /\ int_ (u " 12 ") = Some 12%Z
  /\ int_ (u "+12") = Some 12%Z /\ int_ (u "-12") = Some (-12)%Z
  /\ int_ (u "1_000") = Some 1000%Z /\ int_ (u "007") = Some 7%Z
  /\ int_ [0xA0; 49; 50] = Some 12%Z /\ int_ [0x1C; 49; 50] = None
  /\ int_ (u "") = None /\ int_ (u "+ 12") = None /\ int_ (u "1__0") = None
  /\ int_ (u "1_") = None /\ int_ (u "_1") = None /\ int_ (u "1.0") = None
  /\ int_ (u "0x10") = None /\ int_ (u "abc") = None.
Proof. vm_compute. repeat split. Qed.

Example decode_examples :
  utf8_decode [0xC2; 0x80] = Some [0x80] /\ utf8_decode [0xC0; 0x80] = None
  /\ utf8_decode [0xE0; 0xA0; 0x80] = Some [0x800]
  /\ utf8_decode [0xE0; 0x80; 0x80] = None
  /\ utf8_decode [0xED; 0x9F; 0xBF] = Some [0xD7FF]
  /\ utf8_decode [0xED; 0xA0; 0x80] = None
  /\ utf8_decode [0xF0; 0x90; 0x80; 0x80] = Some [0x10000]
  /\ utf8_decode [0xF4; 0x8F; 0xBF; 0xBF] = Some [0x10FFFF]
  /\ utf8_decode [0xF4; 0x90; 0x80; 0x80] = None
  /\ utf8_decode [0xFF] = None /\ utf8_decode [0x80] = None
  /\ utf8_encode [0xD800] = None.
Proof. vm_compute. repeat split. Qed.

Example int_limits :
  int_ (repeat 48 4300) = Some 0%Z /\ int_ (repeat 48 4301) = None
  /\ int_ (repeat 48 4298 ++ u "100") = None
  /\ int_ ([32; 45] ++ repeat 57 4300 ++ [32]) <> None
  /\ int_ [0x663] = Some 3%Z /\ int_ [0x2000; 0xFF11; 0x3000] = Some 1%Z
  /\ int_ [0x200B; 49] = None /\ int_ [0xB2] = None.
Proof. vm_compute. repeat split. discriminate. Qed.

(** ** Text *)

Lemma str_eqb_refl s : str_eqb s s = true.
Proof. unfold str_eqb. apply bool_decide_eq_true_2. reflexivity. Qed.

Lemma str_eqb_eq a b : str_eqb a b = true <-> a = b.
Proof. unfold str_eqb. apply bool_decide_eq_true. Qed.

Lemma is_ascii_app a b : is_ascii (a ++ b) = is_ascii a && is_ascii b.
Proof. unfold is_ascii. apply forallb_app. Qed.

Lemma hex_digit_ascii n : n < 16 -> hex_digit n < 128.
Proof. unfold hex_digit. destruct (N.ltb_spec n 10); lia. Qed.

Lemma is_ascii_hexdigest d : is_ascii (hexdigest d) = true.
Proof.
  induction d as [|b d IH]; [reflexivity|].
  unfold hexdigest in *. cbn [flat_map].
  rewrite is_ascii_app, IH, andb_true_r.
  cbn [is_ascii forallb]. rewrite andb_true_r.
  apply andb_true_iff. split; apply N.ltb_lt, hex_digit_ascii; apply N.mod_lt; lia.
Qed.

Lemma is_ascii_signature d : is_ascii (u "v1=" ++ hexdigest d) = true.
Proof. rewrite is_ascii_app, is_ascii_hexdigest. reflexivity. Qed.

Lemma octets_bounded s : Forall (fun c => c < 256) (octets s).
Proof.
  unfold octets. induction s as [|a s IH]; cbn [list_ascii_of_string map].
  - constructor.
  - constructor; [apply N_ascii_bounded | exact IH].
Qed.

Lemma utf8_encode_latin1 s : utf8_encode (latin1 s) = Some (utf8_of_latin1 s).
Proof.
  unfold latin1, utf8_of_latin1.
  induction (octets_bounded s) as [|c l Hc _ IH]; [reflexivity|].
  cbn [flat_map].
  apply utf8_encode_cons; [|exact IH].
  unfold utf8_encode_cp.
  destruct (N.ltb_spec c 0x80); [reflexivity|].
  destruct (N.ltb_spec c 0x800); [reflexivity|lia].
Qed.

Lemma utf8_of_latin1_ascii s :
  is_ascii (latin1 s) = true -> utf8_of_latin1 s = octets s.
Proof.
  unfold latin1, utf8_of_latin1, is_ascii.
  induction (octets s) as [|c l IH]; [reflexivity|].
  cbn [forallb flat_map]. intros [Hc Hl]%andb_true_iff.
  rewrite Hc, (IH Hl). reflexivity.
Qed.

(** The message the receiver signs is the header text, a full stop and the
    body octets as they came in: decoding the body and encoding it again
    changes nothing. *)
Lemma signed_message ts raw payload :
  utf8_decode raw = Some payload ->
  utf8_encode (latin1 ts ++ u "." ++ payload) = Some (spec_message ts raw).
Proof.
  intros Hdec. unfold spec_message.
  apply utf8_encode_app; [apply utf8_encode_latin1|].
  apply utf8_encode_app; [reflexivity|].
  apply utf8_roundtrip, Hdec.
Qed.

(** ** Stepping through a computation *)

Arguments u : simpl never.
Arguments utf8_decode : simpl never.
Arguments utf8_encode : simpl never.
Arguments latin1 : simpl never.
Arguments SHA256.hmac : simpl never.
Arguments hexdigest : simpl never.
Arguments int_ : simpl never.

Lemma print_ok l w :
  print_error l = None -> print l w = (inr tt, emit (Print l) w).
Proof. unfold print. intros ->. reflexivity. Qed.

Lemma print_fails l e w : print_error l = Some e -> print l w = (inl e, w).
Proof. unfold print. intros ->. reflexivity. Qed.

Ltac run :=
  repeat progress
    (unfold mbind, Py_bind, mret, Py_ret, raise, try_except, get,
            time_time, hmac_new_hexdigest;
     cbn [negb orb andb eq_str fst snd];
     rewrite ?print_ok by (vm_compute; reflexivity)).

(** The lines of the source text are written without fail. *)
Ltac literals :=
  repeat match goal with
  | |- context [print_error (Line ?t)] =>
    let H := fresh in
    assert (H : print_error (Line t) = None) by (vm_compute; reflexivity);
    rewrite H; clear H
  | |- context [print_error (LineE ?p ?e)] =>
    let H := fresh in
    assert (H : print_error (LineE p e) = None) by (vm_compute; reflexivity);
    rewrite H; clear H
  end.

Lemma stdout_emit_print l w : stdout (emit (Print l) w) = stdout w ++ [l].
Proof. unfold stdout, emit. cbn [trace]. rewrite omap_app. reflexivity. Qed.

Lemma stdout_emit_hmac k m w : stdout (emit (HmacNew k m) w) = stdout w.
Proof.
  unfold stdout, emit. cbn [trace]. rewrite omap_app. apply app_nil_r.
Qed.

Lemma digests_emit_print l w : digests (emit (Print l) w) = digests w.
Proof.
  unfold digests, emit. cbn [trace]. rewrite omap_app. apply app_nil_r.
Qed.

Lemma clock_emit e w : clock (emit e w) = clock w.
Proof. reflexivity. Qed.

Lemma clock_emits l w : clock (emits l w) = clock w.
Proof.
  revert w. induction l as [|e l IH]; intros w; [reflexivity|].
  cbn [emits fold_left]. change (clock (emits l (emit e w)) = clock w).
  rewrite IH. reflexivity.
Qed.

(** ** The verifier *)

Section Verifier.

Variables (secret payload signature timestamp : str).

Lemma verify_unparsable w :
  int_ timestamp = None ->
  verify_webhook_signature secret payload signature timestamp w
  = (inl (ValueError timestamp), w).
Proof.
  intros Hint. unfold verify_webhook_signature, int. rewrite Hint. reflexivity.
Qed.

Lemma verify_stale t w :
  int_ timestamp = Some t -> (300 < Z.abs (clock w - t))%Z ->
  verify_webhook_signature secret payload signature timestamp w
  = (inr false, emit too_old w).
Proof.
  intros Hint Hgap. unfold verify_webhook_signature, int. rewrite Hint. run.
  destruct (Z.ltb_spec 300 (Z.abs (clock w - t))); [reflexivity|lia].
Qed.

Lemma verify_fresh t key msg w :
  int_ timestamp = Some t -> (Z.abs (clock w - t) <= 300)%Z ->
  utf8_encode secret = Some key ->
  utf8_encode (timestamp ++ u "." ++ payload) = Some msg ->
  verify_webhook_signature secret payload signature timestamp w
  = (if is_ascii signature
     then inr (str_eqb (u "v1=" ++ hexdigest (SHA256.hmac key msg)) signature)
     else inl TypeError,
     emit (HmacNew key msg) w).
Proof.
  intros Hint Hgap Hkey Hmsg.
  unfold verify_webhook_signature, int, encode, compare_digest.
  rewrite Hint, Hkey, Hmsg. run.
  destruct (Z.ltb_spec 300 (Z.abs (clock w - t))); [lia|].
  rewrite is_ascii_signature. cbn [andb].
  destruct (is_ascii signature); reflexivity.
Qed.

End Verifier.

(** C2.  Stale overrides validity: when the time stamp parses and
    [|now - timestamp| > 300], [verify_webhook_signature] returns [False]
    for every signature, the correct one included.  It has then printed
    the line "Request timestamp too old" and nothing else, and no digest has
    been computed: the freshness test comes before [hmac.new]. *)
Theorem C2_stale_overrides_validity
    (secret payload signature timestamp : str) (t : Z) (w : World) :
  int_ timestamp = Some t ->
  (300 < Z.abs (clock w - t))%Z ->
  verify_webhook_signature secret payload signature timestamp w
  = (inr false, emit too_old w)
  /\ digests (emit too_old w) = digests w.
Proof.
  intros Hint Hgap. split.
  - exact (verify_stale secret payload signature timestamp t w Hint Hgap).
  - apply digests_emit_print.
Qed.

(** The event [{}] stamped 100 and correctly signed, received at 500. *)
Lemma C2_witness :
  str_eqb (latin1 signature_100)
          (spec_expected_signature (octets "whsec_your_secret_here") "100"
                                   (octets "{}")) = true
  /\ verify_webhook_signature placeholder (u "{}") (latin1 signature_100)
                              (latin1 "100") (at_ 500)
     = (inr false, emit too_old (at_ 500))
  /\ digests (emit too_old (at_ 500)) = digests (at_ 500).
Proof.
  split; [vm_compute; reflexivity|].
  apply (C2_stale_overrides_validity placeholder (u "{}") (latin1 signature_100)
           (latin1 "100") 100%Z (at_ 500)).
  - vm_compute. reflexivity.
  - vm_compute. reflexivity.
Defined.



(** C5.  Determinism: two calls of [verify_webhook_signature] with the same
    payload, signature, time stamp and secret, in two worlds whose clocks
    read the same time, return the same result (or raise the same
    exception) and print and compute the same things, whatever was printed
    or computed before. *)
Theorem C5_verify_deterministic
    (secret payload signature timestamp : str) (w1 w2 : World) :
  clock w1 = clock w2 ->
  exists res evs,
    verify_webhook_signature secret payload signature timestamp w1
    = (res, emits evs w1)
    /\ verify_webhook_signature secret payload signature timestamp w2
       = (res, emits evs w2).
Proof.
  intros Hclock.
  unfold verify_webhook_signature, int, encode, compare_digest.
  destruct (int_ timestamp) as [t|]; run;
    [|exists (inl (ValueError timestamp)), []; split; reflexivity].
  rewrite <- Hclock.
  destruct (300 <? Z.abs (clock w1 - t))%Z;
    [exists (inr false), [too_old]; split; reflexivity|].
  destruct (utf8_encode secret) as [key|]; run;
    [|exists (inl (UnicodeEncodeError secret)), []; split; reflexivity].
  destruct (utf8_encode (timestamp ++ u "." ++ payload)) as [msg|]; run;
    [|eexists (inl (UnicodeEncodeError _)), []; split; reflexivity].
  destruct (is_ascii _ && is_ascii signature); run;
    eexists _, [HmacNew key msg]; split; reflexivity.
Qed.

(** The same call after nothing, and after a digest and a line. *)
Lemma C5_witness :
  exists res evs,
    verify_webhook_signature placeholder (u "{}") (latin1 signature_100)
                             (latin1 "100") (at_ 130)
    = (res, emits evs (at_ 130))
    /\ verify_webhook_signature placeholder (u "{}") (latin1 signature_100)
                                (latin1 "100")
                                {| clock := 130; trace := [HmacNew [1] [2]; too_old] |}
       = (res, emits evs {| clock := 130; trace := [HmacNew [1] [2]; too_old] |}).
Proof.
  apply (C5_verify_deterministic placeholder (u "{}") (latin1 signature_100)
           (latin1 "100") (at_ 130)
           {| clock := 130; trace := [HmacNew [1] [2]; too_old] |}).
  reflexivity.
Defined.

(** C8.  The freshness boundary is inclusive: at [|now - timestamp| = 300]
    the request is not rejected as stale, the digest is computed and the
    result is that of the signature comparison; at
    [|now - timestamp| = 301] the request is rejected as stale whatever its
    signature. *)
Theorem C8_freshness_boundary
    (secret payload signature timestamp : str) (t : Z) (w : World) :
  int_ timestamp = Some t ->
  ((Z.abs (clock w - t) = 300)%Z ->
   forall key msg,
     utf8_encode secret = Some key ->
     utf8_encode (timestamp ++ u "." ++ payload) = Some msg ->
     verify_webhook_signature secret payload signature timestamp w
     = (if is_ascii signature
        then inr (str_eqb (u "v1=" ++ hexdigest (SHA256.hmac key msg)) signature)
        else inl TypeError,
        emit (HmacNew key msg) w))
  /\ ((Z.abs (clock w - t) = 301)%Z ->
      verify_webhook_signature secret payload signature timestamp w
      = (inr false, emit too_old w)).
Proof.
  intros Hint. split.
  - intros Hgap key msg Hkey Hmsg.
    apply (verify_fresh secret payload signature timestamp t key msg w);
      [exact Hint | lia | exact Hkey | exact Hmsg].
  - intros Hgap.
    apply (verify_stale secret payload signature timestamp t w);
      [exact Hint | lia].
Qed.

(** The correctly signed event, 300 and 301 seconds after its stamp. *)
Lemma C8_witness :
  verify_webhook_signature placeholder (u "{}") (latin1 signature_100)
                           (latin1 "100") (at_ 400)
  = (inr true, emit (HmacNew (octets "whsec_your_secret_here") (octets "100.{}"))
                    (at_ 400))
  /\ verify_webhook_signature placeholder (u "{}") (latin1 signature_100)
                              (latin1 "100") (at_ 401)
     = (inr false, emit too_old (at_ 401)).
Proof.
  split.
  - refine (proj1 (C8_freshness_boundary placeholder (u "{}")
                     (latin1 signature_100) (latin1 "100") 100%Z (at_ 400) _)
                  _ (octets "whsec_your_secret_here") (octets "100.{}") _ _);
      vm_compute; reflexivity.
  - refine (proj2 (C8_freshness_boundary placeholder (u "{}")
                     (latin1 signature_100) (latin1 "100") 100%Z (at_ 401) _) _);
      vm_compute; reflexivity.
Defined.

(** ** The handler *)

Lemma headers_get_Some r name v :
  headers r !! name = Some v -> headers_get r name = Some (latin1 v).
Proof. unfold headers_get. intros ->. reflexivity. Qed.

Lemma headers_get_None r name :
  headers r !! name = None -> headers_get r name = None.
Proof. unfold headers_get. intros ->. reflexivity. Qed.

Lemma truthy_latin1 s : s <> ""%string -> truthy (Some (latin1 s)) = true.
Proof. destruct s; [congruence|reflexivity]. Qed.

Lemma truthy_present r name v :
  headers r !! name = Some v -> v <> ""%string ->
  truthy (headers_get r name) = true.
Proof. intros H Hv. rewrite (headers_get_Some _ _ _ H). apply truthy_latin1, Hv. Qed.

Lemma str_of_present r name v :
  headers r !! name = Some v -> str_of (headers_get r name) = latin1 v.
Proof. intros H. rewrite (headers_get_Some _ _ _ H). reflexivity. Qed.

(** The header gate: nothing is decoded, parsed or printed behind it. *)
Lemma webhook_gate secret r w :
  truthy (headers_get r "X-Webhook-Signature") = false
  \/ truthy (headers_get r "X-Webhook-Timestamp") = false ->
  webhook secret r w
  = (inr {| body := Text (u "Missing signature headers"); status := 401 |}, w).
Proof.
  intros H. unfold webhook.
  destruct H as [-> | ->]; [|rewrite orb_true_r]; reflexivity.
Qed.

Lemma has_surrogate_app a b :
  has_surrogate (a ++ b) = has_surrogate a || has_surrogate b.
Proof. unfold has_surrogate. apply existsb_app. Qed.

Lemma has_surrogate_latin1 s : has_surrogate (latin1 s) = false.
Proof.
  unfold latin1, has_surrogate.
  induction (octets_bounded s) as [|c l Hc _ IH]; [reflexivity|].
  cbn [existsb]. rewrite IH, orb_false_r.
  unfold surrogate. apply andb_false_iff. left. apply N.leb_gt. lia.
Qed.

(** A printable value after the text of the source is written. *)
Lemma print_error_value prefix v :
  has_surrogate prefix = false -> printable v = true ->
  print_error (LineV prefix v) = None.
Proof.
  unfold printable, print_error. intros Hp [Hl Hs]%andb_true_iff.
  apply negb_true_iff in Hl. rewrite Hl.
  destruct v; cbn [raw_text]; rewrite ?has_surrogate_app, Hp; try reflexivity.
  apply negb_true_iff in Hs. rewrite Hs. reflexivity.
Qed.

(** A header value is always printable: it is Latin-1 text. *)
Lemma printable_header r name : printable (value_of (headers_get r name)) = true.
Proof.
  unfold headers_get. destruct (headers r !! name) as [v|]; [|reflexivity].
  cbn [fmap option_fmap option_map value_of]. unfold printable.
  cbn [too_long negb andb]. rewrite has_surrogate_latin1. reflexivity.
Qed.

Lemma printed_all ls :
  Forall (fun l => print_error l = None) ls -> printed ls = (ls, None).
Proof.
  induction 1 as [|l ls Hl _ IH]; [reflexivity|].
  cbn [printed]. rewrite Hl, IH. reflexivity.
Qed.

Lemma answer_ok ls resp w :
  Forall (fun l => print_error l = None) ls ->
  answer ls resp w = (inr resp, emits (map Print ls) w).
Proof. intros H. unfold answer. rewrite (printed_all ls H). reflexivity. Qed.

(** The two ways [answer] can end. *)
Lemma answer_cases ls resp w :
  (exists p, printed ls = (p, None)
             /\ answer ls resp w = (inr resp, emits (map Print p) w))
  \/ (exists p e,
        printed ls = (p, Some e)
        /\ answer ls resp w
           = (inr invalid_payload_400,
              emits (map Print p
                     ++ [Print (LineE (u "❌ Error processing webhook: ") e)]) w)).
Proof.
  unfold answer. destruct (printed ls) as [p [e|]]; [right|left]; eauto.
Qed.

Section Handler.

Variable secret : str.
Variable r : Request.
Variable w : World.

Hypothesis Hsig : truthy (headers_get r "X-Webhook-Signature") = true.
Hypothesis Hts : truthy (headers_get r "X-Webhook-Timestamp") = true.

(** [request.data.decode('utf-8')] stands before the [try]: its exception
    escapes the handler. *)
Lemma webhook_undecodable :
  utf8_decode (data r) = None ->
  webhook secret r w = (inl (UnicodeDecodeError (data r)), w).
Proof.
  intros Hdec. unfold webhook, decode. rewrite Hsig, Hts, Hdec. reflexivity.
Qed.

Variable payload : str.
Hypothesis Hdec : utf8_decode (data r) = Some payload.

Lemma webhook_unparsed e :
  json r = inl e ->
  webhook secret r w
  = (inr {| body := Text (u "Invalid payload"); status := 400 |},
     emits (received ++ [Print (LineE (u "❌ Error processing webhook: ") e)]) w).
Proof.
  intros Hjson. unfold webhook, decode, request_json.
  rewrite Hsig, Hts, Hdec, Hjson. run. reflexivity.
Qed.

Lemma webhook_not_keyed v :
  json r = inr v -> keyed_document (inr v) = false ->
  webhook secret r w
  = (inr {| body := Text (u "Invalid payload"); status := 400 |},
     emits (received
            ++ [Print (LineE (u "❌ Error processing webhook: ") (AttributeError v))])
           w).
Proof.
  intros Hjson Hv. unfold webhook, decode, request_json.
  rewrite Hsig, Hts, Hdec, Hjson.
  destruct v; try discriminate Hv; run; reflexivity.
Qed.

Variable d : list (str * value).
Hypothesis Hjson : json r = inr (VDict d).

Ltac each_print :=
  unfold print; literals;
  repeat match goal with
  | |- context [print_error (LineV ?p ?v)] => destruct (print_error (LineV p v))
  end;
  run; reflexivity.

Lemma webhook_handshake_A_answer :
  eq_str (dict_get d (u "type")) (u "webhook.verification") = true ->
  webhook secret r w = answer (handshake_A_lines d) ok_200 (emits received w).
Proof.
  intros Hty. unfold webhook, decode, request_json.
  rewrite Hsig, Hts, Hdec, Hjson. run. rewrite Hty. run.
  unfold answer, handshake_A_lines. cbn [printed]. each_print.
Qed.

Lemma webhook_handshake_B_answer :
  eq_str (dict_get d (u "type")) (u "webhook.verification") = false ->
  eq_str (dict_get d (u "type")) (u "url_verification") = true ->
  webhook secret r w
  = answer (handshake_B_lines d)
           {| body := Jsonify (VDict [(u "challenge", dict_get d (u "challenge"))]);
              status := 200 |}
           (emits received w).
Proof.
  intros HA HB. unfold webhook, decode, request_json.
  rewrite Hsig, Hts, Hdec, Hjson. run. rewrite HA, HB. run.
  unfold answer, handshake_B_lines. cbn [printed]. each_print.
Qed.

(** A standard event: the verifier decides, and what it accepts is
    described in the log. *)
Lemma webhook_standard :
  eq_str (dict_get d (u "type")) (u "webhook.verification") = false ->
  eq_str (dict_get d (u "type")) (u "url_verification") = false ->
  webhook secret r w
  = match verify_webhook_signature secret payload
            (str_of (headers_get r "X-Webhook-Signature"))
            (str_of (headers_get r "X-Webhook-Timestamp"))
            (emits received w) with
    | (inl e, w') =>
      (inr invalid_payload_400,
       emit (Print (LineE (u "❌ Error processing webhook: ") e)) w')
    | (inr false, w') =>
      (inr invalid_signature_401,
       emit (Print (Line (u "❌ Invalid signature!"))) w')
    | (inr true, w') =>
      answer (event_lines d (headers_get r "X-Webhook-Id")) ok_200 w'
    end.
Proof.
  intros HA HB. unfold webhook, decode, request_json.
  rewrite Hsig, Hts, Hdec, Hjson. run. rewrite HA, HB.
  change (emit (Print (Line rule))
            (emit (Print (Line (u "📨 Webhook received")))
               (emit (Print (Line (nl ++ rule))) w)))
    with (emits received w).
  destruct (verify_webhook_signature _ _ _ _ _) as [[e|[|]] w'].
  - run. reflexivity.
  - run. unfold answer, event_lines. cbn [printed]. each_print.
  - run. reflexivity.
Qed.

(** With a printable token, the handshake of style A as it is logged. *)
Lemma webhook_handshake_A :
  eq_str (dict_get d (u "type")) (u "webhook.verification") = true ->
  printable (dict_get d (u "verification_token")) = true ->
  webhook secret r w
  = (inr {| body := Text (u "OK"); status := 200 |},
     emits (received ++
       [ Print (Line (u "🔍 Webhook verification request (Stripe-style)"));
         Print (LineV (u "   Token: ") (dict_get d (u "verification_token")));
         Print (Line (u "✅ Responding with 200 OK" ++ nl)) ]) w).
Proof.
  intros Hty Hp. rewrite (webhook_handshake_A_answer Hty).
  rewrite answer_ok; [reflexivity|].
  repeat constructor; try (vm_compute; reflexivity).
  apply print_error_value; [vm_compute; reflexivity|exact Hp].
Qed.

Lemma webhook_handshake_B :
  eq_str (dict_get d (u "type")) (u "webhook.verification") = false ->
  eq_str (dict_get d (u "type")) (u "url_verification") = true ->
  printable (dict_get d (u "challenge")) = true ->
  webhook secret r w
  = (inr {| body := Jsonify (VDict [(u "challenge", dict_get d (u "challenge"))]);
            status := 200 |},
     emits (received ++
       [ Print (Line (u "🔍 URL verification request (Slack-style)"));
         Print (LineV (u "   Challenge: ") (dict_get d (u "challenge")));
         Print (Line (u "✅ Responding with challenge" ++ nl)) ]) w).
Proof.
  intros HA HB Hp. rewrite (webhook_handshake_B_answer HA HB).
  rewrite answer_ok; [reflexivity|].
  repeat constructor; try (vm_compute; reflexivity).
  apply print_error_value; [vm_compute; reflexivity|exact Hp].
Qed.

End Handler.

Lemma answer_responds ls resp w : exists resp' w', answer ls resp w = (inr resp', w').
Proof.
  destruct (answer_cases ls resp w) as [(p & _ & ->)|(p & e & _ & ->)]; eauto.
Qed.

(** No exception of the [try] block escapes: a request whose body decodes
    always gets a response. *)
Lemma webhook_responds secret r w :
  is_Some (utf8_decode (data r)) ->
  exists resp w', webhook secret r w = (inr resp, w').
Proof.
  intros [payload Hdec].
  destruct (truthy (headers_get r "X-Webhook-Signature")) eqn:Hsig;
    [|rewrite webhook_gate by auto; eauto].
  destruct (truthy (headers_get r "X-Webhook-Timestamp")) eqn:Hts;
    [|rewrite webhook_gate by auto; eauto].
  destruct (json r) as [e|v] eqn:Hjson;
    [rewrite (webhook_unparsed secret r w Hsig Hts payload Hdec e Hjson); eauto|].
  destruct (keyed_document (inr v)) eqn:Hk;
    [|rewrite (webhook_not_keyed secret r w Hsig Hts payload Hdec v Hjson Hk); eauto].
  destruct v as [| | | | | |d]; try discriminate Hk.
  destruct (eq_str (dict_get d (u "type")) (u "webhook.verification")) eqn:HA;
    [rewrite (webhook_handshake_A_answer secret r w Hsig Hts payload Hdec d Hjson HA);
     apply answer_responds|].
  destruct (eq_str (dict_get d (u "type")) (u "url_verification")) eqn:HB;
    [rewrite (webhook_handshake_B_answer secret r w Hsig Hts payload Hdec d Hjson HA HB);
     apply answer_responds|].
  rewrite (webhook_standard secret r w Hsig Hts payload Hdec d Hjson HA HB).
  destruct (verify_webhook_signature _ _ _ _ _) as [[e|[|]] w']; eauto.
  apply answer_responds.
Qed.

(** The specification's end-to-end scenario: secret [s3cr3t], a current time
    stamp, a correctly signed [payment.succeeded] event. *)
Example scenario_accepted :
  (webhook (u "s3cr3t") scenario (at_ 1700000000)).1
  = inr {| body := Text (u "OK"); status := 200 |}.
Proof. vm_compute. reflexivity. Qed.

(** A body that is not UTF-8 is not answered by the handler at all: the
    exception of line 59 leaves it (Flask answers 500). *)
Example undecodable_escapes :
  webhook placeholder undecodable_signed (at_ 100)
  = (inl (UnicodeDecodeError [0xFF]), at_ 100).
Proof. vm_compute. reflexivity. Qed.


(** A token that standard output cannot encode: the [print] of line 71
    raises inside the [try], and the handshake is answered 400. *)
Example surrogate_token_is_400 :
  (webhook placeholder handshake_A_surrogate (at_ 1700000000)).1
  = inr invalid_payload_400.
Proof. vm_compute. reflexivity. Qed.

Lemma trace_emits l w : trace (emits l w) = trace w ++ l.
Proof.
  revert w. induction l as [|e l IH]; intros w.
  - symmetry. apply app_nil_r.
  - change (emits (e :: l) w) with (emits l (emit e w)).
    rewrite IH. unfold emit. cbn [trace]. rewrite <- app_assoc. reflexivity.
Qed.

Lemma digests_emits l w :
  digests (emits l w)
  = digests w
    ++ omap (fun e => match e with HmacNew k m => Some (k, m) | Print _ => None end) l.
Proof. unfold digests. rewrite trace_emits, omap_app. reflexivity. Qed.

Lemma stdout_emits l w :
  stdout (emits l w)
  = stdout w
    ++ omap (fun e => match e with Print x => Some x | HmacNew _ _ => None end) l.
Proof. unfold stdout. rewrite trace_emits, omap_app. reflexivity. Qed.

Lemma eq_str_VStr s : eq_str (VStr s) s = true.
Proof. apply str_eqb_refl. Qed.

Lemma url_is_not_webhook :
  eq_str (VStr (u "url_verification")) (u "webhook.verification") = false.
Proof. vm_compute. reflexivity. Qed.

(** *** Handshake style A *)

(** C1, as stated, fails: the handshake of style A sent without signature
    headers is answered 401 "Missing signature headers", and the answer does
    not hold the token. *)
Lemma C1_counterexample :
  headers handshake_A_bare !! "X-Webhook-Signature"%string = None
  /\ headers handshake_A_bare !! "X-Webhook-Timestamp"%string = None
  /\ (exists d, json handshake_A_bare = inr (VDict d)
                /\ dict_get d (u "type") = VStr (u "webhook.verification")
                /\ dict_get d (u "verification_token") = VStr (u "tok_123"))
  /\ webhook placeholder handshake_A_bare (at_ 1700000000)
     = (inr {| body := Text (u "Missing signature headers"); status := 401 |},
        at_ 1700000000)
  /\ body_contains (u "tok_123") (Text (u "Missing signature headers")) = false.
Proof.
  split; [reflexivity|]. split; [reflexivity|].
  split; [eexists; split; [reflexivity|]; split; vm_compute; reflexivity|].
  split; vm_compute; reflexivity.
Qed.

(** C1, amended.  A request whose body is UTF-8 text that parses with
    [type = "webhook.verification"], which carries both signature headers
    with non-empty values, and whose verification token can be printed, is
    answered 200 with the body "OK" whatever the headers hold: no digest is
    computed.  The verification token goes to the log, not into the
    response. *)
Theorem C1_handshake_A_behind_gate
    (secret : str) (r : Request) (w : World) (sig ts : string)
    (payload : str) (d : list (str * value)) :
  headers r !! "X-Webhook-Signature"%string = Some sig -> sig <> ""%string ->
  headers r !! "X-Webhook-Timestamp"%string = Some ts -> ts <> ""%string ->
  utf8_decode (data r) = Some payload ->
  json r = inr (VDict d) ->
  dict_get d (u "type") = VStr (u "webhook.verification") ->
  printable (dict_get d (u "verification_token")) = true ->
  exists w',
    webhook secret r w = (inr {| body := Text (u "OK"); status := 200 |}, w')
    /\ stdout w'
       = stdout w ++
         [ Line (nl ++ rule); Line (u "📨 Webhook received"); Line rule;
           Line (u "🔍 Webhook verification request (Stripe-style)");
           LineV (u "   Token: ") (dict_get d (u "verification_token"));
           Line (u "✅ Responding with 200 OK" ++ nl) ]
    /\ digests w' = digests w.
Proof.
  intros Hsig Hsne Hts Htne Hdec Hjson Hty Hp.
  eexists. split.
  - apply (webhook_handshake_A secret r w (truthy_present _ _ _ Hsig Hsne)
             (truthy_present _ _ _ Hts Htne) payload Hdec d Hjson);
      [rewrite Hty; apply eq_str_VStr | exact Hp].
  - split; [rewrite stdout_emits | rewrite digests_emits; apply app_nil_r].
    reflexivity.
Qed.

Lemma C1_witness :
  exists w',
    webhook placeholder handshake_A_signed (at_ 1700000000)
    = (inr {| body := Text (u "OK"); status := 200 |}, w')
    /\ stdout w'
       = stdout (at_ 1700000000) ++
         [ Line (nl ++ rule); Line (u "📨 Webhook received"); Line rule;
           Line (u "🔍 Webhook verification request (Stripe-style)");
           LineV (u "   Token: ")
                 (dict_get [ (u "type", VStr (u "webhook.verification"));
                             (u "verification_token", VStr (u "tok_123")) ]
                           (u "verification_token"));
           Line (u "✅ Responding with 200 OK" ++ nl) ]
    /\ digests w' = digests (at_ 1700000000).
Proof.
  apply (C1_handshake_A_behind_gate placeholder handshake_A_signed
           (at_ 1700000000) "anything" "whenever"
           (default [] (utf8_decode (data handshake_A_signed)))).
  - reflexivity.
  - discriminate.
  - reflexivity.
  - discriminate.
  - vm_compute. reflexivity.
  - reflexivity.
  - vm_compute. reflexivity.
  - vm_compute. reflexivity.
Defined.

(** *** Handshake style B *)

(** C7, as stated, fails: the challenge request sent without signature
    headers is answered 401, not with the challenge. *)
Lemma C7_counterexample :
  (exists d, json challenge_bare = inr (VDict d)
             /\ dict_get d (u "type") = VStr (u "url_verification")
             /\ dict_get d (u "challenge") = VStr (u "abc"))
  /\ webhook placeholder challenge_bare (at_ 1700000000)
     = (inr {| body := Text (u "Missing signature headers"); status := 401 |},
        at_ 1700000000).
Proof.
  split; [eexists; split; [reflexivity|]; split; vm_compute; reflexivity|].
  vm_compute. reflexivity.
Qed.

(** C7, amended.  A request whose body is UTF-8 text that parses with
    [type = "url_verification"], which carries both signature headers with
    non-empty values, and whose [challenge] can be printed, is answered 200
    with the JSON document [{"challenge": c}], [c] being the request's
    [challenge]; no digest is computed. *)
Theorem C7_challenge_echo_behind_gate
    (secret : str) (r : Request) (w : World) (sig ts : string)
    (payload : str) (d : list (str * value)) (c : value) :
  headers r !! "X-Webhook-Signature"%string = Some sig -> sig <> ""%string ->
  headers r !! "X-Webhook-Timestamp"%string = Some ts -> ts <> ""%string ->
  utf8_decode (data r) = Some payload ->
  json r = inr (VDict d) ->
  dict_get d (u "type") = VStr (u "url_verification") ->
  dict_get d (u "challenge") = c ->
  printable c = true ->
  exists w',
    webhook secret r w
    = (inr {| body := Jsonify (VDict [(u "challenge", c)]); status := 200 |}, w')
    /\ digests w' = digests w.
Proof.
  intros Hsig Hsne Hts Htne Hdec Hjson Hty <- Hp.
  eexists. split.
  - apply (webhook_handshake_B secret r w (truthy_present _ _ _ Hsig Hsne)
             (truthy_present _ _ _ Hts Htne) payload Hdec d Hjson);
      [rewrite Hty; apply url_is_not_webhook | rewrite Hty; apply eq_str_VStr
       | exact Hp].
  - rewrite digests_emits. apply app_nil_r.
Qed.

Lemma C7_witness :
  exists w',
    webhook placeholder challenge_signed (at_ 1700000000)
    = (inr {| body := Jsonify (VDict [(u "challenge", VStr (u "abc"))]);
              status := 200 |}, w')
    /\ digests w' = digests (at_ 1700000000).
Proof.
  apply (C7_challenge_echo_behind_gate placeholder challenge_signed
           (at_ 1700000000) "anything" "whenever"
           (default [] (utf8_decode (data challenge_signed)))
           [ (u "type", VStr (u "url_verification"));
             (u "challenge", VStr (u "abc")) ]).
  - reflexivity.
  - discriminate.
  - reflexivity.
  - discriminate.
  - vm_compute. reflexivity.
  - reflexivity.
  - vm_compute. reflexivity.
  - vm_compute. reflexivity.
  - vm_compute. reflexivity.
Defined.

(** *** Malformed input *)

(** C4, as stated, fails: on a time stamp that is no integer the verifier
    returns no outcome at all, it raises [ValueError]; the handler's
    catch-all then answers as for a malformed payload. *)
Lemma C4_counterexample :
  headers event_bad_timestamp !! "X-Webhook-Timestamp"%string = Some "abc"%string
  /\ int_ (latin1 "abc") = None
  /\ verify_webhook_signature placeholder (u "{}") (latin1 signature_100)
                              (latin1 "abc") (at_ 100)
     = (inl (ValueError (latin1 "abc")), at_ 100)
  /\ (webhook placeholder event_bad_timestamp (at_ 100)).1
     = inr {| body := Text (u "Invalid payload"); status := 400 |}.
Proof. repeat split; vm_compute; reflexivity. Qed.

(** C4, amended.  On a time-stamp header that fails integer parsing the
    verifier raises [ValueError], before any digest is computed and
    whatever the other arguments; when the handler had reached the verifier
    it answers 400 "Invalid payload".  The verifier has no outcome of its
    own for malformed headers; what it raises is caught by the handler's
    [except Exception]: every request whose body decodes gets a response. *)
Theorem C4_unparsable_timestamp_raises (secret : str) :
  (forall payload signature ts w,
     int_ (latin1 ts) = None ->
     verify_webhook_signature secret payload signature (latin1 ts) w
     = (inl (ValueError (latin1 ts)), w))
  /\ (forall r w sig ts payload d,
        headers r !! "X-Webhook-Signature"%string = Some sig -> sig <> ""%string ->
        headers r !! "X-Webhook-Timestamp"%string = Some ts -> ts <> ""%string ->
        utf8_decode (data r) = Some payload ->
        json r = inr (VDict d) ->
        eq_str (dict_get d (u "type")) (u "webhook.verification") = false ->
        eq_str (dict_get d (u "type")) (u "url_verification") = false ->
        int_ (latin1 ts) = None ->
        webhook secret r w
        = (inr {| body := Text (u "Invalid payload"); status := 400 |},
           emits (received
                  ++ [Print (LineE (u "❌ Error processing webhook: ")
                                   (ValueError (latin1 ts)))]) w))
  /\ (forall r w,
        is_Some (utf8_decode (data r)) ->
        exists resp w', webhook secret r w = (inr resp, w')).
Proof.
  split; [|split].
  - intros payload signature ts w. apply verify_unparsable.
  - intros r w sig ts payload d Hsig Hsne Hts Htne Hdec Hjson HA HB Hint.
    rewrite (webhook_standard secret r w (truthy_present _ _ _ Hsig Hsne)
               (truthy_present _ _ _ Hts Htne) payload Hdec d Hjson HA HB).
    rewrite (str_of_present _ _ _ Hts), verify_unparsable by exact Hint.
    reflexivity.
  - intros r w. apply webhook_responds.
Qed.

Lemma C4_witness :
  verify_webhook_signature placeholder (u "{}") (latin1 signature_100)
                           (latin1 "abc") (at_ 100)
  = (inl (ValueError (latin1 "abc")), at_ 100)
  /\ webhook placeholder event_bad_timestamp (at_ 100)
     = (inr {| body := Text (u "Invalid payload"); status := 400 |},
        emits (received
               ++ [Print (LineE (u "❌ Error processing webhook: ")
                                (ValueError (latin1 "abc")))]) (at_ 100))
  /\ exists resp w',
       webhook placeholder event_bad_timestamp (at_ 100) = (inr resp, w').
Proof.
  pose proof (C4_unparsable_timestamp_raises placeholder) as (HA & HB & HC).
  split; [|split].
  - apply HA. vm_compute. reflexivity.
  - apply (HB event_bad_timestamp (at_ 100) signature_100 "abc"%string
              (u "{}") []).
    + reflexivity.
    + discriminate.
    + reflexivity.
    + discriminate.
    + vm_compute. reflexivity.
    + reflexivity.
    + vm_compute. reflexivity.
    + vm_compute. reflexivity.
    + vm_compute. reflexivity.
  - apply HC. vm_compute. eexists. reflexivity.
Defined.

(** C6, as stated, fails: a body that is no JSON, sent without signature
    headers, is answered 401 and not 400. *)
Lemma C6_counterexample :
  keyed_document (json garbage_bare) = false
  /\ webhook placeholder garbage_bare (at_ 100)
     = (inr {| body := Text (u "Missing signature headers"); status := 401 |},
        at_ 100).
Proof. split; vm_compute; reflexivity. Qed.

(** C6, amended.  A request that carries both signature headers with
    non-empty values, and whose body is UTF-8 text that does not parse into
    a keyed document (it is no JSON, or JSON that is no object), is answered
    400 "Invalid payload", whatever the signature headers hold, correctly
    computed ones included: the failure is met before the verifier is
    called. *)
Theorem C6_malformed_payload_is_400
    (secret : str) (r : Request) (w : World) (sig ts : string) (payload : str) :
  headers r !! "X-Webhook-Signature"%string = Some sig -> sig <> ""%string ->
  headers r !! "X-Webhook-Timestamp"%string = Some ts -> ts <> ""%string ->
  utf8_decode (data r) = Some payload ->
  keyed_document (json r) = false ->
  exists e,
    webhook secret r w
    = (inr {| body := Text (u "Invalid payload"); status := 400 |},
       emits (received ++ [Print (LineE (u "❌ Error processing webhook: ") e)]) w).
Proof.
  intros Hsig Hsne Hts Htne Hdec Hk.
  pose proof (truthy_present _ _ _ Hsig Hsne) as Hs.
  pose proof (truthy_present _ _ _ Hts Htne) as Ht.
  destruct (json r) as [e|v] eqn:Hjson.
  - exists e. apply (webhook_unparsed secret r w Hs Ht payload Hdec e Hjson).
  - exists (AttributeError v).
    apply (webhook_not_keyed secret r w Hs Ht payload Hdec v Hjson Hk).
Qed.

(** The body "not json" with the signature correctly computed over it. *)
Lemma C6_witness :
  str_eqb (latin1 garbage_signature)
          (spec_expected_signature (octets "whsec_your_secret_here") "100"
                                   (data garbage_signed)) = true
  /\ exists e,
       webhook placeholder garbage_signed (at_ 100)
       = (inr {| body := Text (u "Invalid payload"); status := 400 |},
          emits (received
                 ++ [Print (LineE (u "❌ Error processing webhook: ") e)])
                (at_ 100)).
Proof.
  split; [vm_compute; reflexivity|].
  apply (C6_malformed_payload_is_400 placeholder garbage_signed (at_ 100)
           garbage_signature "100"%string (u "not json")).
  - reflexivity.
  - discriminate.
  - reflexivity.
  - discriminate.
  - vm_compute. reflexivity.
  - reflexivity.
Defined.

(** *** The header gate *)

(** C10, as stated, fails in its second half: a handshake whose two headers
    are present, the signature header with the empty value, is answered
    401. *)
Lemma C10_counterexample :
  headers handshake_A_empty_signature !! "X-Webhook-Signature"%string
  = Some ""%string
  /\ headers handshake_A_empty_signature !! "X-Webhook-Timestamp"%string
     = Some "1700000000"%string
  /\ (exists d, json handshake_A_empty_signature = inr (VDict d)
                /\ dict_get d (u "type") = VStr (u "webhook.verification"))
  /\ webhook placeholder handshake_A_empty_signature (at_ 1700000000)
     = (inr {| body := Text (u "Missing signature headers"); status := 401 |},
        at_ 1700000000).
Proof.
  split; [reflexivity|]. split; [reflexivity|].
  split; [eexists; split; [reflexivity|vm_compute; reflexivity]|].
  vm_compute. reflexivity.
Qed.

(** C10, amended.  The header gate comes first: a request lacking the
    [X-Webhook-Signature] or the [X-Webhook-Timestamp] header is answered
    401 "Missing signature headers" whatever its body, handshakes included,
    and nothing is decoded, parsed or printed for it.  Conversely a
    handshake of either style, with a UTF-8 body and a token or challenge
    that can be printed, whose two headers are present with non-empty
    values is answered 200 whatever the values are: no digest is
    computed. *)
Theorem C10_header_gate_first (secret : str) (r : Request) (w : World) :
  (headers r !! "X-Webhook-Signature"%string = None
   \/ headers r !! "X-Webhook-Timestamp"%string = None ->
   webhook secret r w
   = (inr {| body := Text (u "Missing signature headers"); status := 401 |}, w))
  /\ (forall sig ts payload d,
        headers r !! "X-Webhook-Signature"%string = Some sig -> sig <> ""%string ->
        headers r !! "X-Webhook-Timestamp"%string = Some ts -> ts <> ""%string ->
        utf8_decode (data r) = Some payload ->
        json r = inr (VDict d) ->
        (dict_get d (u "type") = VStr (u "webhook.verification")
         /\ printable (dict_get d (u "verification_token")) = true)
        \/ (dict_get d (u "type") = VStr (u "url_verification")
            /\ printable (dict_get d (u "challenge")) = true) ->
        exists resp w',
          webhook secret r w = (inr resp, w')
          /\ status resp = 200%Z /\ digests w' = digests w).
Proof.
  split.
  - intros H. apply webhook_gate.
    destruct H as [H|H]; [left|right]; rewrite (headers_get_None _ _ H); reflexivity.
  - intros sig ts payload d Hsig Hsne Hts Htne Hdec Hjson Hty.
    pose proof (truthy_present _ _ _ Hsig Hsne) as Hs.
    pose proof (truthy_present _ _ _ Hts Htne) as Ht.
    destruct Hty as [[Hty Hp]|[Hty Hp]].
    + eexists _, _. split; [|split].
      * apply (webhook_handshake_A secret r w Hs Ht payload Hdec d Hjson);
          [rewrite Hty; apply eq_str_VStr | exact Hp].
      * reflexivity.
      * rewrite digests_emits. apply app_nil_r.
    + eexists _, _. split; [|split].
      * apply (webhook_handshake_B secret r w Hs Ht payload Hdec d Hjson);
          [rewrite Hty; apply url_is_not_webhook | rewrite Hty; apply eq_str_VStr
           | exact Hp].
      * reflexivity.
      * rewrite digests_emits. apply app_nil_r.
Qed.

Lemma C10_witness :
  webhook placeholder handshake_A_bare (at_ 1700000000)
  = (inr {| body := Text (u "Missing signature headers"); status := 401 |},
     at_ 1700000000)
  /\ exists resp w',
       webhook placeholder handshake_A_signed (at_ 1700000000) = (inr resp, w')
       /\ status resp = 200%Z /\ digests w' = digests (at_ 1700000000).
Proof.
  split.
  - apply (proj1 (C10_header_gate_first placeholder handshake_A_bare
                    (at_ 1700000000))).
    left. reflexivity.
  - apply (proj2 (C10_header_gate_first placeholder handshake_A_signed
                    (at_ 1700000000))
             "anything"%string "whenever"%string
             (default [] (utf8_decode (data handshake_A_signed)))
             [ (u "type", VStr (u "webhook.verification"));
               (u "verification_token", VStr (u "tok_123")) ]).
    + reflexivity.
    + discriminate.
    + reflexivity.
    + discriminate.
    + vm_compute. reflexivity.
    + reflexivity.
    + left. split; vm_compute; reflexivity.
Defined.

(** ** Shared facts *)

Lemma digests_emit_hmac k m w :
  digests (emit (HmacNew k m) w) = digests w ++ [(k, m)].
Proof. unfold digests, emit. cbn [trace]. rewrite omap_app. reflexivity. Qed.

Lemma truthy_headers_inv r name :
  truthy (headers_get r name) = true ->
  exists v, headers r !! name = Some v /\ v <> ""%string.
Proof.
  unfold headers_get. destruct (headers r !! name) as [v|]; [|discriminate].
  destruct v; [discriminate|]. intros _. eexists. split; [reflexivity|discriminate].
Qed.

Lemma truthy_headers_false r name :
  truthy (headers_get r name) = false ->
  headers r !! name = None \/ headers r !! name = Some ""%string.
Proof.
  unfold headers_get. destruct (headers r !! name) as [v|]; [|auto].
  destruct v; [auto|discriminate].
Qed.

Lemma signature_not_empty sig key ts raw :
  latin1 sig = spec_expected_signature key ts raw -> sig <> ""%string.
Proof.
  intros H ->. apply (f_equal length) in H.
  unfold spec_expected_signature in H. rewrite length_app in H.
  change (length (latin1 "")) with 0%nat in H.
  change (length (u "v1=")) with 3%nat in H. lia.
Qed.

Lemma timestamp_not_empty ts t : int_ (latin1 ts) = Some t -> ts <> ""%string.
Proof. intros H ->. vm_compute in H. discriminate. Qed.

(** Every way [verify_webhook_signature] can end. *)
Lemma verify_cases secret payload signature timestamp w :
  (int_ timestamp = None
   /\ verify_webhook_signature secret payload signature timestamp w
      = (inl (ValueError timestamp), w))
  \/ (exists t, int_ timestamp = Some t /\ (300 < Z.abs (clock w - t))%Z
      /\ verify_webhook_signature secret payload signature timestamp w
         = (inr false, emit too_old w))
  \/ (exists t e, int_ timestamp = Some t /\ (Z.abs (clock w - t) <= 300)%Z
      /\ (utf8_encode secret = None
          \/ utf8_encode (timestamp ++ u "." ++ payload) = None)
      /\ verify_webhook_signature secret payload signature timestamp w
         = (inl e, w))
  \/ (exists t key msg,
        int_ timestamp = Some t /\ (Z.abs (clock w - t) <= 300)%Z
        /\ utf8_encode secret = Some key
        /\ utf8_encode (timestamp ++ u "." ++ payload) = Some msg
        /\ verify_webhook_signature secret payload signature timestamp w
           = (if is_ascii signature
              then inr (str_eqb (u "v1=" ++ hexdigest (SHA256.hmac key msg))
                                signature)
              else inl TypeError,
              emit (HmacNew key msg) w)).
Proof.
  destruct (int_ timestamp) as [t|] eqn:Hint;
    [|left; split; [reflexivity|apply verify_unparsable, Hint]].
  right.
  destruct (Z.ltb_spec 300 (Z.abs (clock w - t))) as [Hgap|Hgap];
    [left; exists t; repeat split; [exact Hgap|apply (verify_stale _ _ _ _ t); auto]|].
  right.
  destruct (utf8_encode secret) as [key|] eqn:Hkey.
  - destruct (utf8_encode (timestamp ++ u "." ++ payload)) as [msg|] eqn:Hmsg.
    + right. exists t, key, msg. repeat split; try assumption.
      apply (verify_fresh _ _ _ _ t); assumption.
    + left. exists t, (UnicodeEncodeError (timestamp ++ u "." ++ payload)).
      repeat split; [exact Hgap|right; reflexivity|].
      unfold verify_webhook_signature, int, encode. rewrite Hint, Hkey, Hmsg. run.
      destruct (Z.ltb_spec 300 (Z.abs (clock w - t))); [lia|reflexivity].
  - left. exists t, (UnicodeEncodeError secret).
    repeat split; [exact Hgap|left; reflexivity|].
    unfold verify_webhook_signature, int, encode. rewrite Hint, Hkey. run.
    destruct (Z.ltb_spec 300 (Z.abs (clock w - t))); [lia|reflexivity].
Qed.

(** The verifier says [True] only in one way. *)
Lemma verify_true_inv secret payload signature timestamp w w' :
  verify_webhook_signature secret payload signature timestamp w = (inr true, w') ->
  exists t key msg,
    int_ timestamp = Some t /\ (Z.abs (clock w - t) <= 300)%Z
    /\ utf8_encode secret = Some key
    /\ utf8_encode (timestamp ++ u "." ++ payload) = Some msg
    /\ signature = u "v1=" ++ hexdigest (SHA256.hmac key msg)
    /\ w' = emit (HmacNew key msg) w.
Proof.
  intros H.
  destruct (verify_cases secret payload signature timestamp w)
    as [[_ E]|[(t & _ & _ & E)|[(t & e & _ & _ & _ & E)|(t & key & msg & Hint & Hgap & Hkey & Hmsg & E)]]];
    rewrite E in H; try discriminate H.
  exists t, key, msg. repeat split; try assumption.
  - destruct (is_ascii signature); [|discriminate H].
    injection H as H _. symmetry. apply str_eqb_eq, H.
  - injection H as _ H. congruence.
Qed.


(** *** What depends on the secret *)

(** What the verifier prints is decided by the time stamp and the clock. *)
Lemma verify_stdout secret payload signature timestamp w :
  stdout (verify_webhook_signature secret payload signature timestamp w).2
  = stdout w
    ++ match int_ timestamp with
       | Some t => if (300 <? Z.abs (clock w - t))%Z
                   then [Line (u "⚠️  Request timestamp too old")] else []
       | None => []
       end.
Proof.
  unfold verify_webhook_signature, int, encode, compare_digest.
  destruct (int_ timestamp) as [t|]; run; [|symmetry; apply app_nil_r].
  destruct (300 <? Z.abs (clock w - t))%Z; [apply stdout_emit_print|].
  rewrite app_nil_r.
  destruct (utf8_encode secret) as [key|]; run; [|reflexivity].
  destruct (utf8_encode (timestamp ++ u "." ++ payload)) as [msg|]; run;
    [|reflexivity].
  destruct (is_ascii _ && is_ascii signature); apply stdout_emit_hmac.
Qed.

(** C9, as stated, fails.  A response body holds the secret when the
    request supplies it: the challenge of a style-B handshake is echoed,
    here the placeholder secret itself.  And the start-up boolean is not the
    only observable derived from the secret: one and the same request is
    answered 200 under one secret and 401 under another. *)
Lemma C9_counterexample :
  (exists w',
     webhook placeholder challenge_placeholder (at_ 1700000000)
     = (inr {| body := Jsonify (VDict [(u "challenge", VStr placeholder)]);
               status := 200 |}, w')
     /\ body_contains placeholder
          (Jsonify (VDict [(u "challenge", VStr placeholder)])) = true)
  /\ (webhook placeholder signed_event (at_ 100)).1
     = inr {| body := Text (u "OK"); status := 200 |}
  /\ (webhook (u "another secret") signed_event (at_ 100)).1
     = inr {| body := Text (u "Invalid signature"); status := 401 |}.
Proof.
  split; [eexists; split; vm_compute; reflexivity|].
  split; vm_compute; reflexivity.
Qed.

(** A secret that does not encode as UTF-8 (an environment value with an
    octet that is no UTF-8 arrives as a lone surrogate): [encode] raises
    when the digest of a fresh event is due, the handler answers 400, and
    the exception raised on the secret is what the log shows. *)
Example unencodable_secret_is_logged :
  observable (webhook [0xDC80] signed_event (at_ 100))
  = (inr invalid_payload_400,
     [ Line (nl ++ rule); Line (u "📨 Webhook received"); Line rule;
       LineE (u "❌ Error processing webhook: ") (UnicodeEncodeError [0xDC80]) ]).
Proof. vm_compute. reflexivity. Qed.

Lemma observable_answer ls resp w1 w2 :
  stdout w1 = stdout w2 ->
  observable (answer ls resp w1) = observable (answer ls resp w2).
Proof.
  intros H. unfold observable.
  destruct (answer_cases ls resp w1) as [(p & Hp & ->)|(p & e & Hp & ->)];
    destruct (answer_cases ls resp w2) as [(p' & Hp' & ->)|(p' & e' & Hp' & ->)];
    rewrite Hp in Hp'; try discriminate Hp'; injection Hp' as <-; subst;
    cbn [fst snd]; rewrite !stdout_emits, H; reflexivity.
Qed.

(** C9, amended.  For a secret that encodes as UTF-8, the handler writes
    neither the secret nor a digest, nor anything derived from them but the
    verdict: what a client and the log get depends on the secret only
    through one bit, whether the signature header equals the signature
    expected for the request's own time stamp and body.  For two such
    secrets under which that bit is the same, the response and the printed
    lines are the same; for a request the handler answers without calling
    the verifier they are the same under any two such secrets.  The
    start-up banner depends on the secret only through the boolean that
    says whether it differs from the placeholder. *)
Theorem C9_secret_only_through_verdict (s1 s2 : str) :
  (forall key1 key2 r w,
     utf8_encode s1 = Some key1 ->
     utf8_encode s2 = Some key2 ->
     (reaches_verifier r = true ->
      forall sig ts,
        headers r !! "X-Webhook-Signature"%string = Some sig ->
        headers r !! "X-Webhook-Timestamp"%string = Some ts ->
        (latin1 sig = spec_expected_signature key1 ts (data r)
         <-> latin1 sig = spec_expected_signature key2 ts (data r))) ->
     observable (webhook s1 r w) = observable (webhook s2 r w))
  /\ (str_eqb s1 placeholder = str_eqb s2 placeholder ->
      forall w, main s1 w = main s2 w).
Proof.
  split.
  - intros key1 key2 r w Hkey1 Hkey2 Hv.
    destruct (truthy (headers_get r "X-Webhook-Signature")) eqn:Hsig;
      [|rewrite !webhook_gate by auto; reflexivity].
    destruct (truthy (headers_get r "X-Webhook-Timestamp")) eqn:Hts;
      [|rewrite !webhook_gate by auto; reflexivity].
    destruct (utf8_decode (data r)) as [payload|] eqn:Hdec;
      [|rewrite !webhook_undecodable by assumption; reflexivity].
    destruct (json r) as [e|v] eqn:Hjson;
      [rewrite !(webhook_unparsed _ r w Hsig Hts payload Hdec e Hjson);
       reflexivity|].
    destruct (keyed_document (inr v)) eqn:Hk;
      [|rewrite !(webhook_not_keyed _ r w Hsig Hts payload Hdec v Hjson Hk);
        reflexivity].
    destruct v as [| | | | | |d]; try discriminate Hk.
    destruct (eq_str (dict_get d (u "type")) (u "webhook.verification")) eqn:HA;
      [rewrite !(webhook_handshake_A_answer _ r w Hsig Hts payload Hdec d Hjson HA);
       reflexivity|].
    destruct (eq_str (dict_get d (u "type")) (u "url_verification")) eqn:HB;
      [rewrite !(webhook_handshake_B_answer _ r w Hsig Hts payload Hdec d Hjson HA HB);
       reflexivity|].
    assert (Hreach : reaches_verifier r = true).
    { unfold reaches_verifier. rewrite Hsig, Hts, Hdec, Hjson, HA, HB.
      cbn [andb negb]. rewrite andb_true_r.
      apply bool_decide_eq_true_2. eauto. }
    destruct (truthy_headers_inv _ _ Hsig) as (sig & Hs & _).
    destruct (truthy_headers_inv _ _ Hts) as (ts & Ht & _).
    specialize (Hv Hreach sig ts Hs Ht).
    rewrite !(webhook_standard _ r w Hsig Hts payload Hdec d Hjson HA HB).
    rewrite (str_of_present _ _ _ Hs), (str_of_present _ _ _ Ht).
    destruct (int_ (latin1 ts)) as [t|] eqn:Hint;
      [|rewrite !verify_unparsable by exact Hint; reflexivity].
    destruct (Z.ltb_spec 300 (Z.abs (clock (emits received w) - t))) as [Hgap|Hgap];
      [rewrite !(verify_stale _ _ _ _ t) by assumption; reflexivity|].
    rewrite (verify_fresh s1 payload (latin1 sig) (latin1 ts) t key1
               (spec_message ts (data r)) (emits received w) Hint Hgap Hkey1
               (signed_message ts (data r) payload Hdec)).
    rewrite (verify_fresh s2 payload (latin1 sig) (latin1 ts) t key2
               (spec_message ts (data r)) (emits received w) Hint Hgap Hkey2
               (signed_message ts (data r) payload Hdec)).
    fold (spec_expected_signature key1 ts (data r)).
    fold (spec_expected_signature key2 ts (data r)).
    destruct (is_ascii (latin1 sig));
      [|unfold observable; cbn [fst snd]; f_equal;
        rewrite !stdout_emit_print, !stdout_emit_hmac; reflexivity].
    assert (Hb : str_eqb (spec_expected_signature key1 ts (data r)) (latin1 sig)
                 = str_eqb (spec_expected_signature key2 ts (data r)) (latin1 sig)).
    { destruct (str_eqb (spec_expected_signature key1 ts (data r)) (latin1 sig)) eqn:E1;
        destruct (str_eqb (spec_expected_signature key2 ts (data r)) (latin1 sig)) eqn:E2;
        try reflexivity.
      - apply str_eqb_eq in E1. symmetry in E1. apply Hv in E1.
        rewrite <- E1, str_eqb_refl in E2. discriminate E2.
      - apply str_eqb_eq in E2. symmetry in E2. apply Hv in E2.
        rewrite <- E2, str_eqb_refl in E1. discriminate E1. }
    rewrite Hb.
    destruct (str_eqb (spec_expected_signature key2 ts (data r)) (latin1 sig)).
    + apply observable_answer. rewrite !stdout_emit_hmac. reflexivity.
    + unfold observable. cbn [fst snd]. f_equal.
      rewrite !stdout_emit_print, !stdout_emit_hmac. reflexivity.
  - intros Hb w. unfold main. rewrite Hb. reflexivity.
Qed.

(** A handshake under two secrets; an event with a signature that is wrong
    under both; and the banner under two secrets that both differ from the
    placeholder. *)
Lemma C9_witness :
  observable (webhook placeholder challenge_signed (at_ 1700000000))
  = observable (webhook (u "another secret") challenge_signed (at_ 1700000000))
  /\ observable (webhook placeholder forged_event (at_ 130))
     = observable (webhook (u "another secret") forged_event (at_ 130))
  /\ main (u "s3cr3t") (at_ 0) = main (u "another secret") (at_ 0).
Proof.
  split; [|split].
  - apply (proj1 (C9_secret_only_through_verdict placeholder (u "another secret"))
             (octets "whsec_your_secret_here") (octets "another secret"));
      [vm_compute; reflexivity | vm_compute; reflexivity |].
    intros Hreach. vm_compute in Hreach. discriminate Hreach.
  - apply (proj1 (C9_secret_only_through_verdict placeholder (u "another secret"))
             (octets "whsec_your_secret_here") (octets "another secret"));
      [vm_compute; reflexivity | vm_compute; reflexivity |].
    intros _ sig ts Hs Ht.
    vm_compute in Hs. injection Hs as <-.
    vm_compute in Ht. injection Ht as <-.
    split; intros H; vm_compute in H; discriminate H.
  - apply (proj2 (C9_secret_only_through_verdict (u "s3cr3t") (u "another secret"))).
    vm_compute. reflexivity.
Defined.

(** ** Further properties of the receiver *)

(** X1.  A standard event is accepted when it is fresh and correctly signed:
    both headers present, a UTF-8 body that parses into an object whose
    [type] is no handshake and whose [id], [type] and [data] can be
    printed, a time stamp within 300 seconds of the clock and the signature
    header equal to the expected signature.  The answer is 200 "OK"; one
    digest was computed, and the log shows the event's [id], [type], the
    [X-Webhook-Id] header and [data] ([None] where absent). *)
Theorem X1_signed_event_accepted
    (secret : str) (key : bytes) (r : Request) (w : World) (sig ts : string)
    (payload : str) (d : list (str * value)) (t : Z) :
  headers r !! "X-Webhook-Signature"%string = Some sig ->
  headers r !! "X-Webhook-Timestamp"%string = Some ts ->
  utf8_decode (data r) = Some payload ->
  json r = inr (VDict d) ->
  eq_str (dict_get d (u "type")) (u "webhook.verification") = false ->
  eq_str (dict_get d (u "type")) (u "url_verification") = false ->
  printable (dict_get d (u "id")) = true ->
  printable (dict_get d (u "type")) = true ->
  printable (dict_get d (u "data")) = true ->
  utf8_encode secret = Some key ->
  int_ (latin1 ts) = Some t ->
  (Z.abs (clock w - t) <= 300)%Z ->
  latin1 sig = spec_expected_signature key ts (data r) ->
  exists w',
    webhook secret r w = (inr ok_200, w')
    /\ stdout w'
       = stdout w ++
         [ Line (nl ++ rule); Line (u "📨 Webhook received"); Line rule;
           Line (u "✅ Signature verified");
           Line (u "📋 Event details:");
           LineV (u "   ID: ") (dict_get d (u "id"));
           LineV (u "   Type: ") (dict_get d (u "type"));
           LineV (u "   Webhook ID: ") (value_of (headers_get r "X-Webhook-Id"));
           Line (nl ++ u "📦 Event data:");
           LineV [] (dict_get d (u "data"));
           Line (nl ++ u "✅ Webhook processed successfully" ++ nl) ]
    /\ digests w' = digests w ++ [(key, spec_message ts (data r))].
Proof.
  intros Hsig Hts Hdec Hjson HA HB Pid Pty Pda Hkey Hint Hgap Heq.
  pose proof (truthy_present _ _ _ Hsig (signature_not_empty _ _ _ _ Heq)) as Hs.
  pose proof (truthy_present _ _ _ Hts (timestamp_not_empty _ _ Hint)) as Ht.
  rewrite (webhook_standard secret r w Hs Ht payload Hdec d Hjson HA HB).
  rewrite (str_of_present _ _ _ Hsig), (str_of_present _ _ _ Hts).
  rewrite (verify_fresh secret payload (latin1 sig) (latin1 ts) t key
             (spec_message ts (data r)) (emits received w) Hint)
    by (rewrite ?clock_emits; auto using signed_message).
  fold (spec_expected_signature key ts (data r)). rewrite Heq.
  unfold spec_expected_signature at 1.
  rewrite is_ascii_signature, str_eqb_refl.
  rewrite answer_ok.
  2:{ unfold event_lines.
      repeat constructor; try (vm_compute; reflexivity);
        apply print_error_value;
        try (vm_compute; reflexivity); auto using printable_header. }
  eexists. split; [reflexivity|]. split.
  - rewrite stdout_emits, stdout_emit_hmac, stdout_emits, <- app_assoc. reflexivity.
  - rewrite digests_emits, digests_emit_hmac, digests_emits.
    cbn [omap list_omap received event_lines map]. rewrite !app_nil_r. reflexivity.
Qed.

Lemma X1_witness :
  exists w',
    webhook placeholder identified_event (at_ 130) = (inr ok_200, w')
    /\ stdout w'
       = stdout (at_ 130) ++
         [ Line (nl ++ rule); Line (u "📨 Webhook received"); Line rule;
           Line (u "✅ Signature verified");
           Line (u "📋 Event details:");
           LineV (u "   ID: ") (dict_get [] (u "id"));
           LineV (u "   Type: ") (dict_get [] (u "type"));
           LineV (u "   Webhook ID: ")
                 (value_of (headers_get identified_event "X-Webhook-Id"));
           Line (nl ++ u "📦 Event data:");
           LineV [] (dict_get [] (u "data"));
           Line (nl ++ u "✅ Webhook processed successfully" ++ nl) ]
    /\ digests w'
       = digests (at_ 130)
         ++ [(octets "whsec_your_secret_here",
              spec_message "100" (data identified_event))].
Proof.
  apply (X1_signed_event_accepted placeholder (octets "whsec_your_secret_here")
           identified_event (at_ 130) signature_100 "100"%string (u "{}") []
           100%Z); try (vm_compute; reflexivity).
  vm_compute. discriminate.
Defined.

(** Every way [webhook] can end. *)
Lemma webhook_cases secret r w :
  ((truthy (headers_get r "X-Webhook-Signature") = false
    \/ truthy (headers_get r "X-Webhook-Timestamp") = false)
   /\ webhook secret r w = (inr missing_headers_401, w))
  \/ (truthy (headers_get r "X-Webhook-Signature") = true
      /\ truthy (headers_get r "X-Webhook-Timestamp") = true
      /\ ((utf8_decode (data r) = None
           /\ webhook secret r w = (inl (UnicodeDecodeError (data r)), w))
          \/ exists payload,
               utf8_decode (data r) = Some payload
               /\ ((exists e,
                      keyed_document (json r) = false
                      /\ webhook secret r w
                         = (inr invalid_payload_400,
                            emits (received
                                   ++ [Print (LineE (u "❌ Error processing webhook: ") e)])
                                  w))
                   \/ exists d,
                        json r = inr (VDict d)
                        /\ ((eq_str (dict_get d (u "type")) (u "webhook.verification") = true
                             /\ webhook secret r w
                                = answer (handshake_A_lines d) ok_200 (emits received w))
                            \/ (eq_str (dict_get d (u "type")) (u "webhook.verification") = false
                                /\ eq_str (dict_get d (u "type")) (u "url_verification") = true
                                /\ webhook secret r w
                                   = answer (handshake_B_lines d)
                                       {| body := Jsonify (VDict [(u "challenge",
                                                                   dict_get d (u "challenge"))]);
                                          status := 200 |}
                                       (emits received w))
                            \/ (eq_str (dict_get d (u "type")) (u "webhook.verification") = false
                                /\ eq_str (dict_get d (u "type")) (u "url_verification") = false
                                /\ webhook secret r w
                                   = match verify_webhook_signature secret payload
                                             (str_of (headers_get r "X-Webhook-Signature"))
                                             (str_of (headers_get r "X-Webhook-Timestamp"))
                                             (emits received w) with
                                     | (inl e, w') =>
                                       (inr invalid_payload_400,
                                        emit (Print (LineE (u "❌ Error processing webhook: ") e)) w')
                                     | (inr false, w') =>
                                       (inr invalid_signature_401,
                                        emit (Print (Line (u "❌ Invalid signature!"))) w')
                                     | (inr true, w') =>
                                       answer (event_lines d (headers_get r "X-Webhook-Id"))
                                              ok_200 w'
                                     end))))).
Proof.
  destruct (truthy (headers_get r "X-Webhook-Signature")) eqn:Hsig;
    [|left; split; [auto|apply webhook_gate; auto]].
  destruct (truthy (headers_get r "X-Webhook-Timestamp")) eqn:Hts;
    [|left; split; [auto|apply webhook_gate; auto]].
  right. split; [reflexivity|]. split; [reflexivity|].
  destruct (utf8_decode (data r)) as [payload|] eqn:Hdec;
    [|left; split; [reflexivity|apply webhook_undecodable; assumption]].
  right. exists payload. split; [reflexivity|].
  destruct (json r) as [e|v] eqn:Hjson;
    [left; exists e; split; [reflexivity|];
     apply (webhook_unparsed secret r w Hsig Hts payload Hdec e Hjson)|].
  destruct (keyed_document (inr v)) eqn:Hk;
    [|left; exists (AttributeError v); split; [reflexivity|];
      apply (webhook_not_keyed secret r w Hsig Hts payload Hdec v Hjson Hk)].
  destruct v as [| | | | | |d]; try discriminate Hk.
  right. exists d. split; [reflexivity|].
  destruct (eq_str (dict_get d (u "type")) (u "webhook.verification")) eqn:HA;
    [left; split; [reflexivity|];
     apply (webhook_handshake_A_answer secret r w Hsig Hts payload Hdec d Hjson HA)|].
  right.
  destruct (eq_str (dict_get d (u "type")) (u "url_verification")) eqn:HB;
    [left; split; [reflexivity|]; split; [reflexivity|];
     apply (webhook_handshake_B_answer secret r w Hsig Hts payload Hdec d Hjson HA HB)|].
  right. split; [reflexivity|]. split; [reflexivity|].
  apply (webhook_standard secret r w Hsig Hts payload Hdec d Hjson HA HB).
Qed.

Lemma inr_eq {A B : Type} (a b : B) : (inr a : A + B) = inr b -> a = b.
Proof. congruence. Qed.

Lemma status_differs (a b : Response) : status a <> status b -> a <> b.
Proof. congruence. Qed.

(** [answer] gives the response it was asked for, or 400. *)
Lemma answer_response ls resp w resp' w' :
  answer ls resp w = (inr resp', w') -> resp' = resp \/ resp' = invalid_payload_400.
Proof.
  destruct (answer_cases ls resp w) as [(p & _ & ->)|(p & e & _ & ->)];
    intros [= <- _]; auto.
Qed.

Lemma answer_200 ls resp w resp' w' :
  answer ls resp w = (inr resp', w') -> status resp' = 200%Z ->
  resp' = resp /\ forall w2, exists w3, answer ls resp w2 = (inr resp, w3).
Proof.
  intros H Hst.
  destruct (answer_cases ls resp w) as [(p & Hp & E)|(p & e & Hp & E)];
    rewrite E in H; injection H as <- _; [|discriminate Hst].
  split; [reflexivity|]. intros w2. unfold answer. rewrite Hp. eauto.
Qed.

Lemma digests_answer ls resp w : digests (answer ls resp w).2 = digests w.
Proof.
  assert (H : forall l,
            omap (fun e => match e with
                           | HmacNew k m => Some (k, m) | Print _ => None end)
                 (map Print l) = []).
  { induction l as [|x l IH]; [reflexivity|exact IH]. }
  destruct (answer_cases ls resp w) as [(p & _ & ->)|(p & e & _ & ->)];
    cbn [snd]; rewrite digests_emits, ?omap_app, H; cbn [omap list_omap];
    rewrite ?app_nil_r; reflexivity.
Qed.

(** X2.  The answer 200 means a handshake or a verified signature: when
    [webhook] answers 200, the body is a JSON object, and either its
    [type] is one of the two handshake types, or the time stamp is within
    300 seconds of the clock and the signature header equals the expected
    signature under the configured secret. *)
Theorem X2_ok_only_if_verified
    (secret : str) (r : Request) (w : World) (resp : Response) (w' : World) :
  webhook secret r w = (inr resp, w') ->
  status resp = 200%Z ->
  exists d,
    json r = inr (VDict d)
    /\ (eq_str (dict_get d (u "type")) (u "webhook.verification") = true
        \/ eq_str (dict_get d (u "type")) (u "url_verification") = true
        \/ exists sig ts key t,
             headers r !! "X-Webhook-Signature"%string = Some sig
             /\ headers r !! "X-Webhook-Timestamp"%string = Some ts
             /\ utf8_encode secret = Some key
             /\ int_ (latin1 ts) = Some t
             /\ (Z.abs (clock w - t) <= 300)%Z
             /\ latin1 sig = spec_expected_signature key ts (data r)).
Proof.
  intros H Hst.
  destruct (webhook_cases secret r w)
    as [[_ E]|(Hs & Ht & [[_ E]|(payload & Hdec & [(e & _ & E)|(d & Hjson & [[HA E]|[(HA & HB & E)|(HA & HB & E)]])])])];
    rewrite E in H; try discriminate H.
  - injection H as <- _. discriminate Hst.
  - injection H as <- _. discriminate Hst.
  - exists d. auto.
  - exists d. auto.
  - exists d. split; [exact Hjson|]. right. right.
    destruct (truthy_headers_inv _ _ Hs) as (sig & Hsig & _).
    destruct (truthy_headers_inv _ _ Ht) as (ts & Hts & _).
    rewrite (str_of_present _ _ _ Hsig), (str_of_present _ _ _ Hts) in H.
    destruct (verify_webhook_signature _ _ _ _ _) as [[e|[|]] w1] eqn:Hv;
      [injection H as <- _; discriminate Hst | | injection H as <- _; discriminate Hst].
    apply verify_true_inv in Hv as (t & key & msg & Hint & Hgap & Hkey & Hmsg & Heq & _).
    rewrite (signed_message ts (data r) payload Hdec) in Hmsg. injection Hmsg as <-.
    rewrite clock_emits in Hgap.
    exists sig, ts, key, t. repeat split; assumption.
Qed.

Lemma X2_witness :
  exists d,
    json signed_event = inr (VDict d)
    /\ (eq_str (dict_get d (u "type")) (u "webhook.verification") = true
        \/ eq_str (dict_get d (u "type")) (u "url_verification") = true
        \/ exists sig ts key t,
             headers signed_event !! "X-Webhook-Signature"%string = Some sig
             /\ headers signed_event !! "X-Webhook-Timestamp"%string = Some ts
             /\ utf8_encode placeholder = Some key
             /\ int_ (latin1 ts) = Some t
             /\ (Z.abs (clock (at_ 130) - t) <= 300)%Z
             /\ latin1 sig = spec_expected_signature key ts (data signed_event)).
Proof.
  apply (X2_ok_only_if_verified placeholder signed_event (at_ 130) ok_200
           (webhook placeholder signed_event (at_ 130)).2).
  - vm_compute. reflexivity.
  - reflexivity.
Defined.

Section Standard_event.

Variable secret : str.
Variable r : Request.
Variable w : World.
Variable sig ts : string.
Variable payload : str.
Variable d : list (str * value).
Variable t : Z.

Hypothesis Hsig : headers r !! "X-Webhook-Signature"%string = Some sig.
Hypothesis Hsne : sig <> ""%string.
Hypothesis Hts : headers r !! "X-Webhook-Timestamp"%string = Some ts.
Hypothesis Hdec : utf8_decode (data r) = Some payload.
Hypothesis Hjson : json r = inr (VDict d).
Hypothesis HA : eq_str (dict_get d (u "type")) (u "webhook.verification") = false.
Hypothesis HB : eq_str (dict_get d (u "type")) (u "url_verification") = false.
Hypothesis Hint : int_ (latin1 ts) = Some t.

(** A standard event, at the call of the verifier. *)
Lemma standard_event :
  webhook secret r w
  = match verify_webhook_signature secret payload (latin1 sig) (latin1 ts)
            (emits received w) with
    | (inl e, w') =>
      (inr invalid_payload_400,
       emit (Print (LineE (u "❌ Error processing webhook: ") e)) w')
    | (inr false, w') =>
      (inr invalid_signature_401,
       emit (Print (Line (u "❌ Invalid signature!"))) w')
    | (inr true, w') =>
      answer (event_lines d (headers_get r "X-Webhook-Id")) ok_200 w'
    end.
Proof.
  rewrite (webhook_standard secret r w (truthy_present _ _ _ Hsig Hsne)
             (truthy_present _ _ _ Hts (timestamp_not_empty _ _ Hint))
             payload Hdec d Hjson HA HB).
  rewrite (str_of_present _ _ _ Hsig), (str_of_present _ _ _ Hts). reflexivity.
Qed.

(** X3.  A fresh standard event whose signature header is ASCII text other
    than the expected signature is answered 401 "Invalid signature", after
    the digest was computed; the log says "Invalid signature!". *)
Theorem X3_wrong_signature_rejected (key : bytes) :
  utf8_encode secret = Some key ->
  (Z.abs (clock w - t) <= 300)%Z ->
  is_ascii (latin1 sig) = true ->
  latin1 sig <> spec_expected_signature key ts (data r) ->
  webhook secret r w
  = (inr invalid_signature_401,
     emits (received
            ++ [ HmacNew key (spec_message ts (data r));
                 Print (Line (u "❌ Invalid signature!")) ]) w).
Proof.
  intros Hkey Hgap Hascii Hne. rewrite standard_event.
  rewrite (verify_fresh secret payload (latin1 sig) (latin1 ts) t key
             (spec_message ts (data r)) (emits received w) Hint)
    by (rewrite ?clock_emits; auto using signed_message).
  rewrite Hascii. fold (spec_expected_signature key ts (data r)).
  destruct (str_eqb _ _) eqn:E; [|reflexivity].
  apply str_eqb_eq in E. congruence.
Qed.

(** X4.  A standard event whose time stamp is more than 300 seconds away
    from the clock is answered 401 "Invalid signature", the same answer as
    for a wrong signature, whatever its signature and whatever the secret;
    only the log tells the two apart, by the line "Request timestamp too
    old" before "Invalid signature!". *)
Theorem X4_stale_event_answer :
  (300 < Z.abs (clock w - t))%Z ->
  webhook secret r w
  = (inr invalid_signature_401,
     emits (received ++ [too_old; Print (Line (u "❌ Invalid signature!"))]) w).
Proof.
  intros Hgap. rewrite standard_event.
  rewrite (verify_stale secret payload (latin1 sig) (latin1 ts) t
             (emits received w) Hint)
    by (rewrite clock_emits; exact Hgap).
  reflexivity.
Qed.

(** X5.  A fresh standard event whose signature header holds a character
    that is not ASCII is answered 400 "Invalid payload", not 401:
    [hmac.compare_digest] raises [TypeError] on it, after the digest was
    computed, and the catch-all answers. *)
Theorem X5_non_ascii_signature_is_400 (key : bytes) :
  utf8_encode secret = Some key ->
  (Z.abs (clock w - t) <= 300)%Z ->
  is_ascii (latin1 sig) = false ->
  webhook secret r w
  = (inr invalid_payload_400,
     emits (received
            ++ [ HmacNew key (spec_message ts (data r));
                 Print (LineE (u "❌ Error processing webhook: ") TypeError) ]) w).
Proof.
  intros Hkey Hgap Hascii. rewrite standard_event.
  rewrite (verify_fresh secret payload (latin1 sig) (latin1 ts) t key
             (spec_message ts (data r)) (emits received w) Hint)
    by (rewrite ?clock_emits; auto using signed_message).
  rewrite Hascii. reflexivity.
Qed.

End Standard_event.

Lemma X3_witness :
  webhook placeholder forged_event (at_ 130)
  = (inr invalid_signature_401,
     emits (received
            ++ [ HmacNew (octets "whsec_your_secret_here")
                         (spec_message "100" (data forged_event));
                 Print (Line (u "❌ Invalid signature!")) ]) (at_ 130)).
Proof.
  apply (X3_wrong_signature_rejected placeholder forged_event (at_ 130)
           "v1=00"%string "100"%string (u "{}") [] 100%Z);
    try (vm_compute; reflexivity); vm_compute; discriminate.
Defined.

Lemma X4_witness :
  webhook placeholder signed_event (at_ 500)
  = (inr invalid_signature_401,
     emits (received ++ [too_old; Print (Line (u "❌ Invalid signature!"))])
           (at_ 500)).
Proof.
  apply (X4_stale_event_answer placeholder signed_event (at_ 500)
           signature_100 "100"%string (u "{}") [] 100%Z);
    try (vm_compute; reflexivity); vm_compute; discriminate.
Defined.

Lemma X5_witness :
  webhook placeholder exotic_event (at_ 130)
  = (inr invalid_payload_400,
     emits (received
            ++ [ HmacNew (octets "whsec_your_secret_here")
                         (spec_message "100" (data exotic_event));
                 Print (LineE (u "❌ Error processing webhook: ") TypeError) ])
           (at_ 130)).
Proof.
  apply (X5_non_ascii_signature_is_400 placeholder exotic_event (at_ 130)
           "v1=é"%string "100"%string (u "{}") [] 100%Z);
    try (vm_compute; reflexivity); vm_compute; discriminate.
Defined.

Lemma headers_falsy r name :
  truthy (headers_get r name) = false
  <-> headers r !! name = None \/ headers r !! name = Some ""%string.
Proof.
  split; [apply truthy_headers_false|].
  unfold headers_get. intros [-> | ->]; reflexivity.
Qed.

Lemma invalid_signature_not_missing : invalid_signature_401 <> missing_headers_401.
Proof.
  intros H. apply (f_equal body) in H. vm_compute in H. discriminate H.
Qed.

Lemma answer_not_missing ls resp w :
  status resp = 200%Z -> (answer ls resp w).1 <> inr missing_headers_401.
Proof.
  intros Hst H.
  destruct (answer ls resp w) as [[e|resp'] w'] eqn:E; [discriminate H|].
  cbn [fst] in H. apply inr_eq in H. subst resp'.
  apply answer_response in E as [E|E]; revert E; apply status_differs;
    [rewrite Hst|]; discriminate.
Qed.

Lemma gate_was_closed secret r w :
  (webhook secret r w).1 = inr missing_headers_401 ->
  truthy (headers_get r "X-Webhook-Signature") = false
  \/ truthy (headers_get r "X-Webhook-Timestamp") = false.
Proof.
  destruct (webhook_cases secret r w)
    as [[G E]|(Hs & Ht & [[_ E]|(payload & Hdec & [(e & _ & E)|(d & Hjson & [[HA E]|[(HA & HB & E)|(HA & HB & E)]])])])];
    rewrite E; intros H.
  - exact G.
  - discriminate H.
  - cbn [fst] in H. apply inr_eq in H. exfalso. revert H.
    apply status_differs. discriminate.
  - exfalso. revert H. apply answer_not_missing. reflexivity.
  - exfalso. revert H. apply answer_not_missing. reflexivity.
  - exfalso. revert H.
    destruct (verify_webhook_signature _ _ _ _ _) as [[e|[|]] w1].
    + cbn [fst]. intros H%inr_eq. revert H. apply status_differs. discriminate.
    + apply answer_not_missing. reflexivity.
    + cbn [fst]. intros H%inr_eq. revert H. apply invalid_signature_not_missing.
Qed.

(** X6.  The answer 401 "Missing signature headers" is given exactly to the
    requests in which the [X-Webhook-Signature] or the
    [X-Webhook-Timestamp] header is absent or empty; no other request gets
    it, and for those that do nothing is printed or computed. *)
Theorem X6_missing_headers_exactly (secret : str) (r : Request) (w : World) :
  ((webhook secret r w).1 = inr missing_headers_401
   <-> (headers r !! "X-Webhook-Signature"%string = None
        \/ headers r !! "X-Webhook-Signature"%string = Some ""%string)
       \/ (headers r !! "X-Webhook-Timestamp"%string = None
           \/ headers r !! "X-Webhook-Timestamp"%string = Some ""%string))
  /\ ((webhook secret r w).1 = inr missing_headers_401 ->
      (webhook secret r w).2 = w).
Proof.
  pose proof (gate_was_closed secret r w) as Hgate.
  split; [split|].
  - intros H. destruct (Hgate H) as [G|G]; [left|right]; apply headers_falsy, G.
  - intros H. rewrite webhook_gate; [reflexivity|].
    destruct H as [H|H]; [left|right]; apply headers_falsy, H.
  - intros H. rewrite webhook_gate; [reflexivity|]. apply Hgate, H.
Qed.

Lemma X6_witness :
  (webhook placeholder handshake_A_empty_signature (at_ 1700000000)).1
  = inr missing_headers_401
  /\ (webhook placeholder handshake_A_empty_signature (at_ 1700000000)).2
     = at_ 1700000000.
Proof.
  pose proof (X6_missing_headers_exactly placeholder handshake_A_empty_signature
                (at_ 1700000000)) as [Hiff Hworld].
  assert (H : (webhook placeholder handshake_A_empty_signature (at_ 1700000000)).1
              = inr missing_headers_401).
  { apply Hiff. left. right. reflexivity. }
  split; [exact H | exact (Hworld H)].
Defined.

(** X7.  An exception leaves [webhook] in one case only: both headers are
    present and non-empty and the body is not valid UTF-8.  It is the
    [UnicodeDecodeError] of [request.data.decode('utf-8')], raised before
    the [try] and before anything is printed. *)
Theorem X7_only_decoding_escapes
    (secret : str) (r : Request) (w : World) (e : exn) (w' : World) :
  webhook secret r w = (inl e, w')
  <-> (exists sig ts,
         headers r !! "X-Webhook-Signature"%string = Some sig /\ sig <> ""%string
         /\ headers r !! "X-Webhook-Timestamp"%string = Some ts /\ ts <> ""%string)
      /\ utf8_decode (data r) = None
      /\ e = UnicodeDecodeError (data r)
      /\ w' = w.
Proof.
  split.
  - intros H.
    destruct (webhook_cases secret r w)
      as [[G E]|(Hs & Ht & [[Hdec E]|(payload & Hdec & [(e0 & _ & E)|(d & Hjson & [[HA E]|[(HA & HB & E)|(HA & HB & E)]])])])];
      rewrite E in H; try discriminate H.
    + injection H as <- <-.
      destruct (truthy_headers_inv _ _ Hs) as (sig & Hsig & Hsne).
      destruct (truthy_headers_inv _ _ Ht) as (ts & Hts & Htne).
      repeat split; eauto 10.
    + destruct (answer_responds (handshake_A_lines d) ok_200 (emits received w))
        as (resp' & w1 & E1). rewrite E1 in H. discriminate H.
    + destruct (answer_responds (handshake_B_lines d)
                  {| body := Jsonify (VDict [(u "challenge",
                                              dict_get d (u "challenge"))]);
                     status := 200 |} (emits received w))
        as (resp' & w1 & E1). rewrite E1 in H. discriminate H.
    + destruct (verify_webhook_signature _ _ _ _ _) as [[e1|[|]] w1];
        try discriminate H.
      destruct (answer_responds (event_lines d (headers_get r "X-Webhook-Id"))
                  ok_200 w1) as (resp' & w2 & E1).
      rewrite E1 in H. discriminate H.
  - intros ((sig & ts & Hsig & Hsne & Hts & Htne) & Hdec & -> & ->).
    apply webhook_undecodable;
      [exact (truthy_present _ _ _ Hsig Hsne) | exact (truthy_present _ _ _ Hts Htne)
       | exact Hdec].
Qed.

Lemma X7_witness :
  webhook placeholder undecodable_signed (at_ 100)
  = (inl (UnicodeDecodeError (data undecodable_signed)), at_ 100).
Proof.
  apply (proj2 (X7_only_decoding_escapes placeholder undecodable_signed (at_ 100)
                  (UnicodeDecodeError (data undecodable_signed)) (at_ 100))).
  split; [|split; [vm_compute; reflexivity|split; reflexivity]].
  exists "v1=00"%string, "100"%string.
  split; [reflexivity|]. split; [discriminate|].
  split; [reflexivity|discriminate].
Defined.

(** X8.  [webhook] has five answers and no other: 401 "Missing signature
    headers", 400 "Invalid payload", 401 "Invalid signature", 200 "OK", and
    200 with the JSON document that holds the challenge. *)
Theorem X8_answers_of_webhook
    (secret : str) (r : Request) (w : World) (resp : Response) (w' : World) :
  webhook secret r w = (inr resp, w') ->
  resp = missing_headers_401
  \/ resp = invalid_payload_400
  \/ resp = invalid_signature_401
  \/ resp = ok_200
  \/ exists c, resp = {| body := Jsonify (VDict [(u "challenge", c)]);
                         status := 200 |}.
Proof.
  intros H.
  destruct (webhook_cases secret r w)
    as [[G E]|(Hs & Ht & [[Hdec E]|(payload & Hdec & [(e0 & _ & E)|(d & Hjson & [[HA E]|[(HA & HB & E)|(HA & HB & E)]])])])];
    rewrite E in H; try discriminate H.
  - injection H as <- _. auto.
  - injection H as <- _. auto.
  - apply answer_response in H as [-> | ->]; auto.
  - apply answer_response in H as [-> | ->]; eauto 10.
  - destruct (verify_webhook_signature _ _ _ _ _) as [[e1|[|]] w1].
    + injection H as <- _. auto.
    + apply answer_response in H as [-> | ->]; auto.
    + injection H as <- _. auto.
Qed.

Lemma X8_witness :
  (webhook placeholder challenge_signed (at_ 1700000000)).1 = inr missing_headers_401
  \/ (webhook placeholder challenge_signed (at_ 1700000000)).1 = inr invalid_payload_400
  \/ (webhook placeholder challenge_signed (at_ 1700000000)).1
     = inr invalid_signature_401
  \/ (webhook placeholder challenge_signed (at_ 1700000000)).1 = inr ok_200
  \/ exists c,
       (webhook placeholder challenge_signed (at_ 1700000000)).1
       = inr {| body := Jsonify (VDict [(u "challenge", c)]); status := 200 |}.
Proof.
  destruct (X8_answers_of_webhook placeholder challenge_signed (at_ 1700000000)
              {| body := Jsonify (VDict [(u "challenge", VStr (u "abc"))]);
                 status := 200 |}
              (webhook placeholder challenge_signed (at_ 1700000000)).2)
    as [H|[H|[H|[H|[c H]]]]];
    [vm_compute; reflexivity | discriminate H | discriminate H | discriminate H
     | discriminate H |].
  right. right. right. right. exists c.
  rewrite <- H. vm_compute. reflexivity.
Defined.

(** X9.  One request costs at most one digest: [webhook] either computes
    none, or exactly one, keyed with the configured secret, over the
    request's own time-stamp header, a full stop and its own body.  None is
    computed behind the header gate, for a body that does not parse, for a
    handshake, for a time stamp that does not parse or is stale. *)
Theorem X9_at_most_one_digest (secret : str) (r : Request) (w : World) :
  digests (webhook secret r w).2 = digests w
  \/ exists key ts t,
       utf8_encode secret = Some key
       /\ headers r !! "X-Webhook-Timestamp"%string = Some ts
       /\ int_ (latin1 ts) = Some t
       /\ (Z.abs (clock w - t) <= 300)%Z
       /\ reaches_verifier r = true
       /\ digests (webhook secret r w).2
          = digests w ++ [(key, spec_message ts (data r))].
Proof.
  destruct (webhook_cases secret r w)
    as [[G E]|(Hs & Ht & [[Hdec E]|(payload & Hdec & [(e0 & _ & E)|(d & Hjson & [[HA E]|[(HA & HB & E)|(HA & HB & E)]])])])];
    rewrite E; cbn [snd]; auto.
  - left. rewrite digests_emits, omap_app. cbn [omap list_omap received].
    apply app_nil_r.
  - left. rewrite digests_answer, digests_emits. cbn [omap list_omap received].
    apply app_nil_r.
  - left. rewrite digests_answer, digests_emits. cbn [omap list_omap received].
    apply app_nil_r.
  - destruct (truthy_headers_inv _ _ Ht) as (ts & Hts & _).
    rewrite (str_of_present _ _ _ Hts).
    assert (Hreach : reaches_verifier r = true).
    { unfold reaches_verifier. rewrite Hs, Ht, Hdec, Hjson, HA, HB.
      cbn [andb negb]. rewrite andb_true_r. apply bool_decide_eq_true_2. eauto. }
    assert (Hrec : digests (emits received w) = digests w).
    { rewrite digests_emits. cbn [omap list_omap received]. apply app_nil_r. }
    destruct (verify_cases secret payload
                (str_of (headers_get r "X-Webhook-Signature")) (latin1 ts)
                (emits received w))
      as [[_ V]|[(t & _ & _ & V)|[(t & e & _ & _ & _ & V)|(t & key & msg & Hint & Hgap & Hkey & Hmsg & V)]]];
      rewrite V; cbn [snd].
    + left. rewrite digests_emit_print. exact Hrec.
    + left. unfold too_old. rewrite !digests_emit_print. exact Hrec.
    + left. rewrite digests_emit_print. exact Hrec.
    + right. exists key, ts, t.
      rewrite (signed_message ts (data r) payload Hdec) in Hmsg. injection Hmsg as <-.
      rewrite clock_emits in Hgap.
      repeat split; try assumption.
      destruct (is_ascii _); [destruct (str_eqb _ _)|]; cbn [snd];
        rewrite ?digests_answer, ?digests_emit_print, digests_emit_hmac, Hrec;
        reflexivity.
Qed.

(** X10.  No request is remembered: a request that was answered 200 is
    answered 200 again when it is delivered once more, in any later state
    of the process, as long as (for a request that goes to the verifier) its
    time stamp is still within 300 seconds of the clock.  The
    [X-Webhook-Id] header plays no part. *)
Theorem X10_replay_is_accepted
    (secret : str) (r : Request) (w w1 : World) (resp : Response) :
  webhook secret r w = (inr resp, w1) ->
  status resp = 200%Z ->
  forall w2,
    (reaches_verifier r = true ->
     forall ts t,
       headers r !! "X-Webhook-Timestamp"%string = Some ts ->
       int_ (latin1 ts) = Some t -> (Z.abs (clock w2 - t) <= 300)%Z) ->
    exists w3, webhook secret r w2 = (inr resp, w3).
Proof.
  intros H Hst w2 Hwin.
  destruct (webhook_cases secret r w)
    as [[_ E]|(Hs & Ht & [[_ E]|(payload & Hdec & [(e & _ & E)|(d & Hjson & [[HA E]|[(HA & HB & E)|(HA & HB & E)]])])])];
    rewrite E in H; try discriminate H.
  - injection H as <- _. discriminate Hst.
  - injection H as <- _. discriminate Hst.
  - apply answer_200 in H as [-> H]; [|exact Hst].
    rewrite (webhook_handshake_A_answer secret r w2 Hs Ht payload Hdec d Hjson HA).
    apply H.
  - apply answer_200 in H as [-> H]; [|exact Hst].
    rewrite (webhook_handshake_B_answer secret r w2 Hs Ht payload Hdec d Hjson HA HB).
    apply H.
  - destruct (truthy_headers_inv _ _ Hs) as (sig & Hsig & Hsne).
    destruct (truthy_headers_inv _ _ Ht) as (ts & Hts & _).
    rewrite (str_of_present _ _ _ Hsig), (str_of_present _ _ _ Hts) in H.
    destruct (verify_webhook_signature _ _ _ _ _) as [[e|[|]] w'] eqn:Hv;
      [injection H as <- _; discriminate Hst | | injection H as <- _; discriminate Hst].
    apply answer_200 in H as [-> H]; [|exact Hst].
    apply verify_true_inv in Hv
      as (t & key & msg & Hint & _ & Hkey & Hmsg & Heq & _).
    assert (Hreach : reaches_verifier r = true).
    { unfold reaches_verifier. rewrite Hs, Ht, Hdec, Hjson, HA, HB.
      cbn [andb negb]. rewrite andb_true_r. apply bool_decide_eq_true_2. eauto. }
    specialize (Hwin Hreach ts t Hts Hint).
    rewrite (standard_event secret r w2 sig ts payload d t Hsig Hsne Hts Hdec
               Hjson HA HB Hint).
    rewrite (verify_fresh secret payload (latin1 sig) (latin1 ts) t key msg
               (emits received w2) Hint)
      by (rewrite ?clock_emits; assumption).
    rewrite Heq, is_ascii_signature, str_eqb_refl.
    apply H.
Qed.

(** The correctly signed event, delivered again right after it was
    accepted. *)
Lemma X10_witness :
  exists w3,
    webhook placeholder identified_event
            (webhook placeholder identified_event (at_ 130)).2
    = (inr ok_200, w3).
Proof.
  apply (X10_replay_is_accepted placeholder identified_event (at_ 130)
           (webhook placeholder identified_event (at_ 130)).2 ok_200).
  - vm_compute. reflexivity.
  - reflexivity.
  - intros _ ts t Hts Hint.
    vm_compute in Hts. injection Hts as <-.
    vm_compute in Hint. injection Hint as <-.
    vm_compute. discriminate.
Defined.

(** X11.  The freshness window looks both ways: a time stamp that lies [d]
    seconds in the future of the clock is treated exactly as one that lies
    [d] seconds in the past, so a request stamped up to 300 seconds ahead
    is fresh. *)
Theorem X11_window_is_symmetric
    (secret payload signature timestamp : str) (t d : Z) (w1 w2 : World) :
  int_ timestamp = Some t ->
  clock w1 = (t + d)%Z ->
  clock w2 = (t - d)%Z ->
  exists res evs,
    verify_webhook_signature secret payload signature timestamp w1
    = (res, emits evs w1)
    /\ verify_webhook_signature secret payload signature timestamp w2
       = (res, emits evs w2).
Proof.
  intros Hint H1 H2.
  unfold verify_webhook_signature, int, encode, compare_digest.
  rewrite Hint. run. rewrite H1, H2.
  replace (Z.abs (t + d - t)) with (Z.abs d) by lia.
  replace (Z.abs (t - d - t)) with (Z.abs d) by lia.
  destruct (300 <? Z.abs d)%Z;
    [exists (inr false), [too_old]; split; reflexivity|].
  destruct (utf8_encode secret) as [key|]; run;
    [|exists (inl (UnicodeEncodeError secret)), []; split; reflexivity].
  destruct (utf8_encode (timestamp ++ u "." ++ payload)) as [msg|]; run;
    [|eexists (inl (UnicodeEncodeError _)), []; split; reflexivity].
  destruct (is_ascii _ && is_ascii signature); run;
    eexists _, [HmacNew key msg]; split; reflexivity.
Qed.

(** The correctly signed event, 300 seconds before and after its stamp. *)
Lemma X11_witness :
  exists res evs,
    verify_webhook_signature placeholder (u "{}") (latin1 signature_100)
                             (latin1 "1000") (at_ 1300)
    = (res, emits evs (at_ 1300))
    /\ verify_webhook_signature placeholder (u "{}") (latin1 signature_100)
                                (latin1 "1000") (at_ 700)
       = (res, emits evs (at_ 700)).
Proof.
  apply (X11_window_is_symmetric placeholder (u "{}") (latin1 signature_100)
           (latin1 "1000") 1000%Z 300%Z (at_ 1300) (at_ 700));
    vm_compute; reflexivity.
Defined.

(** *** The signed message *)

Lemma lstrip_split s :
  exists ws, s = ws ++ lstrip s /\ Forall (fun c => py_space c = true) ws.
Proof.
  induction s as [|c s (ws & E & F)]; [exists []; split; [reflexivity|constructor]|].
  cbn [lstrip]. destruct (py_space c) eqn:Hc.
  - exists (c :: ws). split; [cbn [app]; congruence|constructor; assumption].
  - exists []. split; [reflexivity|constructor].
Qed.

Lemma strip_split s :
  exists a b,
    s = a ++ strip s ++ b
    /\ Forall (fun c => py_space c = true) a
    /\ Forall (fun c => py_space c = true) b.
Proof.
  destruct (lstrip_split s) as (a & Ea & Fa).
  destruct (lstrip_split (rev (lstrip s))) as (b & Eb & Fb).
  exists a, (rev b). split; [|split; [exact Fa|apply Forall_rev, Fb]].
  unfold strip. rewrite <- rev_app_distr, <- Eb, rev_involutive. exact Ea.
Qed.

Lemma digit_int_char c z : digit c = Some z -> int_char c = true.
Proof. unfold int_char. intros ->. apply orb_true_r. Qed.

Lemma digit_underscore : digit 95 = None.
Proof. vm_compute. reflexivity. Qed.

Lemma digits_chars r : forall acc b z,
  digits acc b r = Some z -> Forall (fun c => int_char c = true) r.
Proof.
  induction r as [|c r IH]; intros acc b z H; [constructor|].
  cbn [digits] in H. destruct (digit c) as [dz|] eqn:Hd.
  - constructor; [exact (digit_int_char c dz Hd) | exact (IH _ _ _ H)].
  - destruct (N.eqb_spec c 95) as [->|_]; [|discriminate H].
    destruct b; [|discriminate H]. cbn [andb] in H.
    constructor; [|exact (IH _ _ _ H)].
    vm_compute. reflexivity.
Qed.

Lemma capped_chars r z : capped r = Some z -> Forall (fun c => int_char c = true) r.
Proof.
  unfold capped. destruct (max_str_digits <? digit_count r)%nat; [discriminate|].
  apply digits_chars.
Qed.

Lemma int_unfold s :
  int_ s
  = match strip s with
    | [] => capped []
    | c :: r =>
      if c =? 43 then capped r
      else if c =? 45 then Z.opp <$> capped r
      else capped (c :: r)
    end.
Proof.
  unfold int_. destruct (strip s) as [|c r]; [reflexivity|].
  destruct c as [|p]; [reflexivity|].
  do 6 (try destruct p as [p|p|]); reflexivity.
Qed.

Lemma space_int_char c : py_space c = true -> int_char c = true.
Proof. unfold int_char. intros ->. reflexivity. Qed.

(** What [int()] accepts is made of white space, signs, digits and
    underscores. *)
Lemma int_chars s t : int_ s = Some t -> Forall (fun c => int_char c = true) s.
Proof.
  rewrite int_unfold. intros H.
  destruct (strip_split s) as (a & b & E & Fa & Fb).
  rewrite E.
  apply Forall_app. split; [eapply Forall_impl; [exact Fa|apply space_int_char]|].
  apply Forall_app. split; [|eapply Forall_impl; [exact Fb|apply space_int_char]].
  destruct (strip s) as [|c r]; [constructor|].
  destruct (N.eqb_spec c 43) as [->|_].
  { constructor; [vm_compute; reflexivity|exact (capped_chars _ _ H)]. }
  destruct (N.eqb_spec c 45) as [->|_].
  { constructor; [vm_compute; reflexivity|].
    destruct (capped r) as [z|] eqn:Hz; [|discriminate H].
    exact (capped_chars _ _ Hz). }
  exact (capped_chars _ _ H).
Qed.

Lemma int_char_no_stop c : int_char c = true -> c <> 46.
Proof. intros H ->. vm_compute in H. discriminate H. Qed.

Lemma split_at_stop (a1 : str) : forall a2 p1 p2 : str,
  Forall (fun c => c <> 46) a1 -> Forall (fun c => c <> 46) a2 ->
  a1 ++ 46 :: p1 = a2 ++ 46 :: p2 -> a1 = a2 /\ p1 = p2.
Proof.
  induction a1 as [|c a1 IH]; intros a2 p1 p2 F1 F2 E.
  - destruct a2 as [|c2 a2]; [injection E as <-; auto|].
    cbn [app] in E. injection E as <- _.
    inversion F2 as [|? ? Hc _]. congruence.
  - destruct a2 as [|c2 a2]; cbn [app] in E.
    + injection E as -> _. inversion F1 as [|? ? Hc _]. congruence.
    + injection E as -> E.
      inversion F1 as [|? ? _ F1']. inversion F2 as [|? ? _ F2'].
      destruct (IH a2 p1 p2 F1' F2' E) as [-> ->]. auto.
Qed.

(** X12.  The signed text [timestamp + "." + payload] is unambiguous: two
    time stamps that both pass [int()] and two payloads that give the same
    signed text are the same time stamp and the same payload.  No octet can
    be moved between the time stamp and the body under one signature. *)
Theorem X12_signed_text_is_unambiguous
    (timestamp1 timestamp2 payload1 payload2 : str) (t1 t2 : Z) :
  int_ timestamp1 = Some t1 ->
  int_ timestamp2 = Some t2 ->
  timestamp1 ++ u "." ++ payload1 = timestamp2 ++ u "." ++ payload2 ->
  timestamp1 = timestamp2 /\ payload1 = payload2.
Proof.
  intros H1 H2 E.
  apply split_at_stop; [| |exact E];
    (eapply Forall_impl; [eapply int_chars; eassumption|apply int_char_no_stop]).
Qed.

Lemma X12_witness :
  latin1 "100" = latin1 "100" /\ u "{}" = u "{}".
Proof.
  apply (X12_signed_text_is_unambiguous (latin1 "100") (latin1 "100")
           (u "{}") (u "{}") 100%Z 100%Z); vm_compute; reflexivity.
Defined.

(** *** The shape of an accepted signature *)

Lemma length_be n x : length (SHA256.be n x) = n.
Proof.
  revert x. induction n as [|n IH]; intros x; [reflexivity|].
  cbn [SHA256.be]. rewrite length_app, IH. cbn [length]. lia.
Qed.

Lemma length_round st kw : length (SHA256.round st kw) = length st.
Proof.
  unfold SHA256.round.
  destruct st as [|a [|b [|c [|d [|e [|f [|g [|h [|i st]]]]]]]]]; reflexivity.
Qed.

Lemma length_rounds kws : forall st,
  length (fold_left SHA256.round kws st) = length st.
Proof.
  induction kws as [|kw kws IH]; intros st; [reflexivity|].
  cbn [fold_left]. rewrite IH. apply length_round.
Qed.

Lemma length_compress h block : length (SHA256.compress h block) = length h.
Proof.
  unfold SHA256.compress. rewrite length_zip_with, length_rounds. lia.
Qed.

Lemma length_sha256 msg : length (SHA256.sha256 msg) = 32%nat.
Proof.
  unfold SHA256.sha256.
  set (bl := SHA256.blocks _ _).
  assert (H : forall h, length (fold_left SHA256.compress bl h) = length h).
  { induction bl as [|b bl IH]; intros h; [reflexivity|].
    cbn [fold_left]. rewrite IH. apply length_compress. }
  specialize (H SHA256.H0).
  destruct (fold_left SHA256.compress bl SHA256.H0)
    as [|a [|b [|c [|d [|e [|f [|g [|h [|i st]]]]]]]]]; try discriminate H.
  cbn [flat_map]. rewrite !length_app, !length_be. reflexivity.
Qed.

Lemma length_hmac key msg : length (SHA256.hmac key msg) = 32%nat.
Proof. unfold SHA256.hmac. apply length_sha256. Qed.

Lemma length_hexdigest d : length (hexdigest d) = (2 * length d)%nat.
Proof.
  unfold hexdigest. induction d as [|b d IH]; [reflexivity|].
  cbn [flat_map length app]. rewrite IH. lia.
Qed.

Lemma hex_digit_lower n : n < 16 -> lower_hex (hex_digit n) = true.
Proof.
  intros H. unfold lower_hex, hex_digit.
  destruct (N.ltb_spec n 10).
  - apply orb_true_iff. left. boolean.
  - apply orb_true_iff. right. boolean.
Qed.

Lemma hexdigest_lower d : forallb lower_hex (hexdigest d) = true.
Proof.
  unfold hexdigest. induction d as [|b d IH]; [reflexivity|].
  cbn [flat_map app forallb]. rewrite IH, andb_true_r.
  apply andb_true_intro. split; apply hex_digit_lower; apply N.mod_lt; lia.
Qed.

(** X13.  Only a signature of the right shape is ever accepted: when
    [verify_webhook_signature] returns [True], the signature is ["v1="]
    followed by exactly 64 digits of [0-9a-f], 67 characters in all. *)
Theorem X13_shape_of_accepted_signature
    (secret payload signature timestamp : str) (w w' : World) :
  verify_webhook_signature secret payload signature timestamp w = (inr true, w') ->
  length signature = 67%nat
  /\ take 3 signature = u "v1="
  /\ forallb lower_hex (drop 3 signature) = true.
Proof.
  intros H.
  apply verify_true_inv in H as (t & key & msg & _ & _ & _ & _ & -> & _).
  change (u "v1=") with [118; 49; 61].
  cbn [app take drop]. rewrite take_0, drop_0.
  cbn [length]. rewrite length_hexdigest, length_hmac.
  repeat split. apply hexdigest_lower.
Qed.

Lemma X13_witness :
  length (latin1 signature_100) = 67%nat
  /\ take 3 (latin1 signature_100) = u "v1="
  /\ forallb lower_hex (drop 3 (latin1 signature_100)) = true.
Proof.
  apply (X13_shape_of_accepted_signature placeholder (u "{}")
           (latin1 signature_100) (latin1 "100") (at_ 130)
           (verify_webhook_signature placeholder (u "{}") (latin1 signature_100)
              (latin1 "100") (at_ 130)).2).
  vm_compute. reflexivity.
Defined.

(** *** Start-up *)

(** X15.  The banner of [__main__] reports "Secret configured: True"
    exactly when the environment variable [WEBHOOK_SECRET] is set to
    something other than the placeholder; an unset variable and the
    placeholder itself give [False], and the empty string counts as
    configured. *)
Theorem X15_secret_configured (environ : gmap string str) (w : World) :
  exists b,
    stdout (main (load_secret environ) w).2
    = stdout w ++
      [ Line (nl ++ rule); Line (u "🎯 Python Webhook Receiver"); Line rule;
        Line (u "✅ Server running on http://localhost:5000");
        LineV (u "⚙️  Secret configured: ") (VBool b);
        Line (rule ++ nl); Line (u "Waiting for webhooks..." ++ nl) ]
    /\ (b = true
        <-> exists v, environ !! "WEBHOOK_SECRET"%string = Some v /\ v <> placeholder)
    /\ (environ !! "WEBHOOK_SECRET"%string = Some [] -> b = true).
Proof.
  exists (negb (str_eqb (load_secret environ) placeholder)).
  split; [|split].
  - unfold main. run. rewrite !stdout_emit_print, <- !app_assoc. reflexivity.
  - unfold load_secret. destruct (environ !! "WEBHOOK_SECRET"%string) as [v|];
      cbn [default from_option id].
    + rewrite negb_true_iff. split.
      * intros H. exists v. split; [reflexivity|].
        intros ->. rewrite str_eqb_refl in H. discriminate H.
      * intros (v' & [= <-] & Hne).
        destruct (str_eqb v placeholder) eqn:E; [|reflexivity].
        apply str_eqb_eq in E. contradiction.
    + rewrite str_eqb_refl. split; [discriminate|]. intros (v & H & _). discriminate H.
  - intros H. unfold load_secret.
    destruct (environ !! "WEBHOOK_SECRET"%string) as [v|]; [|discriminate H].
    injection H as ->. vm_compute. reflexivity.
Qed.

(** An environment whose [WEBHOOK_SECRET] is the empty string. *)
Lemma X15_witness :
  exists b,
    stdout (main (load_secret {[ "WEBHOOK_SECRET"%string := [] ]}) (at_ 0)).2
    = stdout (at_ 0) ++
      [ Line (nl ++ rule); Line (u "🎯 Python Webhook Receiver"); Line rule;
        Line (u "✅ Server running on http://localhost:5000");
        LineV (u "⚙️  Secret configured: ") (VBool b);
        Line (rule ++ nl); Line (u "Waiting for webhooks..." ++ nl) ]
    /\ b = true.
Proof.
  destruct (X15_secret_configured {[ "WEBHOOK_SECRET"%string := [] ]} (at_ 0))
    as (b & Hout & _ & Hempty).
  exists b. split; [exact Hout|]. apply Hempty. reflexivity.
Defined.
